(** * training_scripts/lincs_experiment.py

    A shallow embedding of the LINCS benchmark script: the class
    [CondGenExperiment] that [make_conditional_experiment] derives from a
    base model, and the [__main__] block that selects a model and drives
    the trainer.

    The script is glue around torch, pytorch_lightning, rdkit and
    matplotlib.  Calls into those libraries (and into the base model
    class) that may have effects are kept as _external calls_: a method is
    a tree of such calls, and it is run against an arbitrary handler that
    answers them.  Pure library functions (float arithmetic, [detach], the
    rdkit drawing functions) are parameters of the development. *)

From Stdlib Require Import ZArith.
From stdpp Require Import gmap strings list fin_maps.

#[local] Set Warnings "-register-all".

Local Open Scope string_scope.
Local Open Scope list_scope.

(** ** Python exceptions and external calls *)

Module Py.

Inductive exn : Type :=
  | KeyError (key : string)
  | IndexError
  | TypeError
  | AttributeError
  | RuntimeError.

Inductive result (A : Type) : Type :=
  | Ok (a : A)
  | Err (e : exn).
Arguments Ok {A} a.
Arguments Err {A} e.

Section Prog.
Context {call : Type} {answer : call -> Type}.

(** A computation either returns, raises, or calls out and continues
        with the answer. *)
Inductive prog (A : Type) : Type :=
    | Ret (a : A)
    | Throw (e : exn)
    | Ext (c : call) (k : answer c -> prog A).
Arguments Ret {A} a.
Arguments Throw {A} e.
Arguments Ext {A} c k.

Fixpoint bind {A B} (p : prog A) (f : A -> prog B) : prog B :=
      match p with
      | Ret a => f a
      | Throw e => Throw e
      | Ext c k => Ext c (fun a => bind (k a) f)
      end.

Definition ext (c : call) : prog (answer c) := Ext c Ret.

Definition lift {A} (r : result A) : prog A :=
      match r with
      | Ok a => Ret a
      | Err e => Throw e
      end.

(** The outside world: a state and an answer to every call. *)
Definition handler (S : Type) : Type := forall c : call, S -> answer c * S.

Definition ask {S} (h : handler S) (c : call) (s : S) : answer c := fst (h c s).
Definition after {S} (h : handler S) (c : call) (s : S) : S := snd (h c s).

(** Running a computation gives its outcome, the final state of the
        world and the calls made, oldest first. *)
Fixpoint run {S A} (h : handler S) (p : prog A) (s : S)
      : result A * S * list call :=
      match p with
      | Ret a => (Ok a, s, [])
      | Throw e => (Err e, s, [])
      | Ext c k =>
          let '(r, s', tr) := run h (k (ask h c s)) (after h c s) in
          (r, s', c :: tr)
      end.

Definition outcome {S A} (o : result A * S * list call) : result A := fst (fst o).
Definition final {S A} (o : result A * S * list call) : S := snd (fst o).
Definition calls {S A} (o : result A * S * list call) : list call := snd o.
End Prog.

Arguments prog : clear implicits.
Arguments prog {call} answer A.
Arguments Ret {call answer A} a.
Arguments Throw {call answer A} e.
Arguments Ext {call answer A} c k.
Arguments handler : clear implicits.
Arguments handler {call} answer S.

End Py.

Import Py.

Notation "'let*' x ':=' p 'in' q" := (bind p (fun x => q))
  (at level 10, x pattern, p at level 100, q at level 200).
Notation "'run*' p 'in' q" := (bind p (fun _ => q))
  (at level 10, p at level 100, q at level 200).

(** ** The libraries the script is written against *)

(** Pure library functions.  Tensor elements are IEEE floats in torch; the
    development never looks inside them, so every theorem holds for
    whatever arithmetic the library implements. *)
Class Library : Type := {
  float : Type;
  fadd : float -> float -> float;          (* torch: a + b *)
  fsub : float -> float -> float;          (* torch: a - b *)
  fneg : float -> float;                   (* torch: -a *)
  fexp : float -> float;                   (* torch.exp, per element *)
  flog : float -> float;                   (* torch.log *)
  fmean : list float -> float;             (* Tensor.mean over all elements *)
  detach : list (list float) -> list (list float);  (* Tensor.detach *)
  mol : Type;
  MolFromSmiles : string -> mol;           (* rdkit.Chem.MolFromSmiles *)
  image : Type;
  MolsToGridImage : list mol -> Z -> image; (* rdkit Draw.MolsToGridImage *)
  figure : Type;                           (* matplotlib figure handle *)
  axes : Type;                             (* matplotlib axes handle *)
  buffer : Type;                           (* bytes of the drawn canvas *)
  ndarray : Type;
  (* np.fromstring(buf, uint8).reshape(nrows, ncols, 3) / 255. *)
  rgb_array : buffer -> Z -> Z -> ndarray;
  (* ndarray.transpose(2, 0, 1) *)
  transpose_2_0_1 : ndarray -> ndarray;
  object : Type                            (* optimizers, schedulers of the base class *)
}.

Module CondGen.

(** A batch tensor is the list of its rows; a 0-dimensional tensor is a
    [float]. *)
Abbreviation tensor := (list (list float)).
Abbreviation smiles := (list string).
Abbreviation batch := (list string * list (list float))%type.

Section WithLibrary.
Context {L : Library}.

Inductive mine_module : Type := mine_fc | mine_enc.

(** Float literal of the source, [mantissa]e[exponent]. *)
Record float_literal : Type := FloatLit { mantissa : Z; exponent : Z }.

(** The values kept in a statistics dictionary. *)
Inductive value : Type :=
| VNone
| VFloat (v : float)                 (* 0-dimensional tensor *)
| VTensor (t : tensor)
| VSmiles (l : smiles)
| VDict (d : gmap string value).

(** What configure_optimizers handles: optimizers and schedulers, in
    lists and tuples. *)
Inductive optimizer : Type :=
| BaseObject (o : object)
| Adam (params : list mine_module) (lr : float_literal).

Inductive pyval : Type :=
| PObj (o : optimizer)
| PList (items : list pyval)
| PTuple (items : list pyval).

Inductive call : Type :=
| NpRandomPermutation (n : nat)              (* np.random.permutation(n) *)
| MineEnc (x : smiles)                       (* self.mine_enc(x) *)
| MineFc (inp : tensor)                      (* self.mine_fc(inp) *)
| GetLatents (b : batch)                     (* self.get_latents(batch) *)
| Sample (y : tensor)                        (* self.sample(y) *)
| SuperTrainingStep (b : batch) (batch_nb : Z) (args : list Z)
| SuperConfigureOptimizers
| SuperValidationStep                        (* super().validation_step() *)
| PltFigure (num : Z) (figsize : Z * Z) (dpi : Z)
| AddSubplot (fig : figure) (nrows ncols index : Z)
| AxisOff (ax : axes)                        (* ax.axis('off') *)
| Imshow (ax : axes) (img : image)
| CanvasDraw (fig : figure)
| CanvasToStringRgb (fig : figure)
| CanvasGetWidthHeight (fig : figure)
| AddImage (tag : string) (img : ndarray).   (* self.logger.experiment.add_image *)

Definition answer (c : call) : Type :=
  match c with
  | NpRandomPermutation _ => list nat
  | MineEnc _ | MineFc _ | GetLatents _ => tensor
  | Sample _ => smiles
  | SuperTrainingStep _ _ _ => gmap string value
  | SuperConfigureOptimizers => pyval
  | SuperValidationStep => option (gmap string value)
  | PltFigure _ _ _ => figure
  | AddSubplot _ _ _ _ => axes
  | CanvasToStringRgb _ => buffer
  | CanvasGetWidthHeight _ => (Z * Z)%type
  | AxisOff _ | Imshow _ _ | CanvasDraw _ | AddImage _ _ => unit
  end.

Definition method (A : Type) : Type := prog answer A.
Definition external (c : call) : method (answer c) := ext c.
Definition raise {A} (e : exn) : method A := Throw e.

(** The calls, as the methods write them. *)
Definition np_random_permutation (n : nat) : method (list nat) :=
  external (NpRandomPermutation n).
Definition self_mine_enc (x : smiles) : method tensor := external (MineEnc x).
Definition self_mine_fc (inp : tensor) : method tensor := external (MineFc inp).
Definition self_get_latents (b : batch) : method tensor := external (GetLatents b).
Definition self_sample (y : tensor) : method smiles := external (Sample y).
Definition super_training_step (b : batch) (batch_nb : Z) (args : list Z)
  : method (gmap string value) := external (SuperTrainingStep b batch_nb args).
Definition super_configure_optimizers : method pyval :=
  external SuperConfigureOptimizers.
Definition super_validation_step : method (option (gmap string value)) :=
  external SuperValidationStep.
Definition plt_figure (num : Z) (figsize : Z * Z) (dpi : Z) : method figure :=
  external (PltFigure num figsize dpi).
Definition add_subplot (fig : figure) (nrows ncols index : Z) : method axes :=
  external (AddSubplot fig nrows ncols index).
Definition axis_off (ax : axes) : method unit := external (AxisOff ax).
Definition imshow (ax : axes) (img : image) : method unit := external (Imshow ax img).
Definition canvas_draw (fig : figure) : method unit := external (CanvasDraw fig).
Definition canvas_tostring_rgb (fig : figure) : method buffer :=
  external (CanvasToStringRgb fig).
Definition canvas_get_width_height (fig : figure) : method (Z * Z) :=
  external (CanvasGetWidthHeight fig).
Definition add_image (tag : string) (img : ndarray) : method unit :=
  external (AddImage tag img).

(** *** Tensor operations whose result is exact *)

(** [z[idx]] for an index array: the rows of [z] at the positions of
    [idx], in that order; a position past the end raises. *)
Fixpoint index_rows (z : tensor) (idx : list nat) : result tensor :=
  match idx with
  | [] => Ok []
  | i :: idx' =>
      match z !! i with
      | None => Err IndexError
      | Some row =>
          match index_rows z idx' with
          | Ok rows => Ok (row :: rows)
          | Err e => Err e
          end
      end
  end.

(** [torch.cat((a, b), dim=-1)]: row [i] is row [i] of [a] followed by
    row [i] of [b]; the batch sizes have to agree. *)
Definition torch_cat (a b : tensor) : result tensor :=
  if decide (length a = length b) then Ok (zip_with app a b)
  else Err RuntimeError.

Definition torch_exp (t : tensor) : tensor := map (map fexp) t.
Definition mean (t : tensor) : float := fmean (concat t).

(** *** mi_computation (lines 48-59) *)

Definition mi_computation (b : batch) (z : tensor) : method float :=
  let '(x, y) := b in
  let* perm := np_random_permutation (length z) in
  let* z_shuffled := lift (index_rows z perm) in
  let* x_lat := self_mine_enc x in
  let* paired := lift (torch_cat x_lat z) in
  let* t := self_mine_fc paired in
  let* mismatched := lift (torch_cat x_lat z_shuffled) in
  let* t_shuffled := self_mine_fc mismatched in
  let et := torch_exp t_shuffled in
  let mi_lb := fsub (mean t) (flog (mean et)) in
  Ret mi_lb.

(** The estimate as the specification words it: the mean of the scores
    of the paired samples, minus the logarithm of the mean of the
    exponentials of the scores of the mismatched samples. *)
Definition donsker_varadhan (t t_shuffled : tensor) : float :=
  fsub (fmean (concat t)) (flog (fmean (map fexp (concat t_shuffled)))).

(** *** training_step (lines 61-86) *)

(** [d[key]] *)
Definition getitem (d : gmap string value) (key : string) : result value :=
  match d !! key with
  | Some v => Ok v
  | None => Err (KeyError key)
  end.

(** [v += delta] for a 0-dimensional tensor [delta]: torch adds in place,
    broadcasting over a larger tensor; other values have no such sum.
    Tensors are kept by value here, so the result is what the entry holds
    afterwards. *)
Definition iadd (v : value) (delta : float) : result value :=
  match v with
  | VFloat a => Ok (VFloat (fadd a delta))
  | VTensor t => Ok (VTensor (map (map (fun a => fadd a delta)) t))
  | _ => Err TypeError
  end.

(** [v[key] = w] for a string key: a dictionary takes it, a tensor
    rejects the index, [None] and a list have no such assignment. *)
Definition setitem (v : value) (key : string) (w : value) : result value :=
  match v with
  | VDict d => Ok (VDict (<[key := w]> d))
  | VFloat _ | VTensor _ => Err IndexError
  | VNone | VSmiles _ => Err TypeError
  end.

(** [args[0]] *)
Definition first_arg (args : list Z) : result Z :=
  match args !! 0%nat with
  | Some a => Ok a
  | None => Err IndexError
  end.

Definition training_step (b : batch) (batch_nb : Z) (args : list Z)
  : method (gmap string value) :=
  let* stats := super_training_step b batch_nb args in
  if decide (length args = 0%nat) then
    (* VAE-like approaches *)
    let b := (b.1, detach b.2) in
    let* latents := self_get_latents b in
    let z := detach latents in
    let* mi := mi_computation b z in
    let* loss := lift (getitem stats "loss") in
    let* loss := lift (iadd loss (fneg mi)) in
    let stats := <["loss" := loss]> stats in
    let* log := lift (getitem stats "log") in
    let* log := lift (setitem log "mi[xz|y]" (VFloat mi)) in
    let stats := <["log" := log]> stats in
    Ret stats
  else
    (* AAE-like approaches *)
    let* optimizer_nb := lift (first_arg args) in
    if decide (optimizer_nb = 2%Z) then
      let b := (b.1, detach b.2) in
      let* latents := self_get_latents b in
      let z := detach latents in
      let* mi := mi_computation b z in
      let stats : gmap string value := ∅ in
      let stats := <["loss" := VFloat (fneg mi)]> stats in
      let stats := <["log" := VDict ∅]> stats in
      let* log := lift (getitem stats "log") in
      let* log := lift (setitem log "mi[xz|y]" (VFloat mi)) in
      let stats := <["log" := log]> stats in
      Ret stats
    else Ret stats.

(** *** configure_optimizers (lines 88-96) *)

(** [v.append(x)]: only lists have the method. *)
Definition append (v x : pyval) : result pyval :=
  match v with
  | PList items => Ok (PList (items ++ [x]))
  | PObj _ | PTuple _ => Err AttributeError
  end.

Definition configure_optimizers : method pyval :=
  let* optim := super_configure_optimizers in
  match optim with
  | PTuple items =>
      (* AAE like approaches *)
      let mi_params := [mine_fc; mine_enc] in
      match items !! 0%nat with
      | None => raise IndexError
      | Some optimizers =>
          let adam := PObj (Adam mi_params (FloatLit 3 (-4))) in
          let* optimizers := lift (append optimizers adam) in
          Ret (PTuple (<[0%nat := optimizers]> items))
      end
  | PObj _ | PList _ => Ret optim
  end.

(** *** validation_step (lines 98-117) *)

Definition validation_step (b : batch) (batch_nb : Z)
  : method (gmap string value) :=
  let* stats := super_validation_step in
  let stats : gmap string value :=
    match stats with
    | None => ∅
    | Some stats => stats
    end in
  let* z := self_get_latents b in
  let* mi := mi_computation b z in
  let stats := <["mi[xz|y]" := VFloat mi]> stats in
  let '(x, y) := b in
  let* sampled_x := self_sample y in
  let stats := <["x_sam" := VSmiles sampled_x]> stats in
  let stats := <["x" := VSmiles x]> stats in
  let stats := <["y" := VTensor y]> stats in
  Ret stats.

(** *** validation_end (lines 119-142) *)

(** [[f(x) for x in xs]], stopping at the first exception. *)
Fixpoint comprehension {A B} (f : A -> result B) (xs : list A) : result (list B) :=
  match xs with
  | [] => Ok []
  | x :: xs' =>
      match f x with
      | Err e => Err e
      | Ok y =>
          match comprehension f xs' with
          | Err e => Err e
          | Ok ys => Ok (y :: ys)
          end
      end
  end.

Definition is_tensor (v : value) : bool :=
  match v with
  | VFloat _ | VTensor _ => true
  | _ => false
  end.

Definition shape (v : value) : list nat :=
  match v with
  | VTensor t => length t :: map length t
  | _ => []
  end.

Definition elements (v : value) : list float :=
  match v with
  | VFloat a => [a]
  | VTensor t => concat t
  | _ => []
  end.

(** [torch.stack(vs).mean()]: the list has to be non-empty and hold
    tensors of one shape; the mean runs over all elements. *)
Definition stack_mean (vs : list value) : result float :=
  match vs with
  | [] => Err RuntimeError
  | v :: _ =>
      if forallb is_tensor vs then
        if decide (Forall (fun w => shape w = shape v) vs)
        then Ok (fmean (flat_map elements vs))
        else Err RuntimeError
      else Err TypeError
  end.

(** [v[:5]] for the list of SMILES strings that the loop hands to
    [Chem.MolFromSmiles]; any other value is rejected. *)
Definition first_five (v : value) : result smiles :=
  match v with
  | VSmiles l => Ok (take 5 l)
  | _ => Err TypeError
  end.

Definition validation_end (outputs : list (gmap string value))
  : method (gmap string value) :=
  let val_stats : gmap string value := ∅ in
  let* mis := lift (comprehension (fun x => getitem x "mi[xz|y]") outputs) in
  let* val_mi := lift (stack_mean mis) in
  let val_stats := <["val_mi[xz|y]" := VFloat val_mi]> val_stats in
  let* fig := plt_figure 0 (10, 4)%Z 300 in
  let* ax := add_subplot fig 1 1 1 in
  run* axis_off ax in
  let* first := lift (match outputs !! 0%nat with
                      | Some o => Ok o
                      | None => Err IndexError
                      end) in
  let* x_sam := lift (getitem first "x_sam") in
  let* x_sam := lift (first_five x_sam) in
  let sampled := map MolFromSmiles x_sam in
  let* x := lift (getitem first "x") in
  let* x := lift (first_five x) in
  let real := map MolFromSmiles x in
  let grid := MolsToGridImage (sampled ++ real) 5 in
  run* imshow ax grid in
  run* canvas_draw fig in
  let* buf := canvas_tostring_rgb fig in
  let* (ncols, nrows) := canvas_get_width_height fig in
  let fig_array := rgb_array buf nrows ncols in
  let fig_array := transpose_2_0_1 fig_array in
  run* add_image "samples" fig_array in
  Ret (<["log" := VDict val_stats]> ∅).

End WithLibrary.

(** *** train_dataloader, val_dataloader (lines 144-158) *)

Record lincs_sampler : Type := LincsSampler {
  lincs_data_set : string;       (* LincsDataSet(path) *)
  test_set : Z;
  use_smiles : bool
}.

Record data_loader : Type := DataLoader {
  dataset : lincs_sampler;
  batch_size : Z;
  shuffle : bool;
  drop_last : bool
}.

Definition train_dataloader : data_loader :=
  let dataset := LincsSampler "../data/lincs" 0 true in
  DataLoader dataset 256 true false.

Definition val_dataloader : data_loader :=
  let dataset := LincsSampler "../data/lincs" 1 true in
  DataLoader dataset 256 true false.

End CondGen.

(** ** The script: the [__main__] block (lines 162-186) and the
    constructor of the experiment class (lines 39-45) *)

Module Main.

Inductive model_class : Type :=
| BiAAE | Lat_SAAE | CVAE | VCCA | JMVAE | VIB | UniAAE | SAAE.

#[global] Instance model_class_eq_dec : EqDecision model_class.
Proof. solve_decision. Defined.

(** What [parser.parse_args()] is given: for each of the two declared
    options, the value on the command line, if any ([--gpu] already
    converted by [type=int]). *)
Record command_line : Type := CommandLine {
  given_model : option string;
  given_gpu : option Z
}.

Record namespace : Type := Namespace {
  model : string;
  gpu : Z
}.

(** The two [add_argument] declarations: an option that is absent takes
    its declared default. *)
Definition parse_args (argv : command_line) : namespace :=
  {| model := default "biaae" (given_model argv);
     gpu := default (-1)%Z (given_gpu argv) |}.

Definition models_dict : gmap string model_class :=
  list_to_map
    [("biaae", BiAAE); ("lat_saae", Lat_SAAE); ("uniaae", UniAAE);
     ("cvae", CVAE); ("vcca", VCCA); ("jmvae", JMVAE); ("vib", VIB);
     ("saae", SAAE)].

Record trainer_config : Type := TrainerConfig {
  gpus : list Z;
  early_stop_callback : bool;
  max_nb_epochs : Z;
  show_progress_bar : bool
}.

(** The calls of the script into the libraries and into the base model.
    Each object of the script (the experiment, the trainer, ...) exists
    once, so a call does not name its receiver. *)
Inductive call : Type :=
| TorchManualSeed (seed : Z)
| SuperInit (base : model_class) (dataset : string)
| RNNEncoder (out_dim : Z)
| TorchLoad (path : string) (map_location : string)
| LoadStateDict                               (* rnn.load_state_dict(...) *)
| FinetunedEncoder (out_dim : Z)
| FCDiscriminator (in_dim : Z)
| ModelCheckpoint (filepath : string) (save_best_only : bool) (period : Z)
| TestTubeLogger (save_dir : string) (name : string)
| Trainer (config : trainer_config)
| Fit                                         (* tr.fit(model) *)
| StateDict                                   (* model.state_dict() *)
| TorchSave (path : string).

(** [SuperInit] answers with the [z_dim] attribute that the base class
    sets; the other calls give objects that the script only passes on. *)
Definition answer (c : call) : Type :=
  match c with
  | SuperInit _ _ => Z
  | _ => unit
  end.

Definition script (A : Type) : Type := prog answer A.
Definition external (c : call) : script (answer c) := ext c.

(** The class that [make_conditional_experiment] derives from a model
    class; its methods are those of [CondGen]. *)
Inductive experiment_class : Type :=
| CondGenExperiment (model : model_class).

Definition make_conditional_experiment (model : model_class) : experiment_class :=
  CondGenExperiment model.

(** [CondGenExperiment.__init__] (lines 39-45). *)
Definition init (cls : experiment_class) : script unit :=
  let 'CondGenExperiment base := cls in
  let* z_dim := external (SuperInit base "lincs_rnn") in
  run* external (RNNEncoder 88) in
  run* external (TorchLoad "../saved_models/rnn_enc.ckpt" "cuda:1") in
  run* external LoadStateDict in
  run* external (FinetunedEncoder z_dim) in
  run* external (FCDiscriminator (2 * z_dim)) in
  Ret tt.

Definition main (argv : command_line) : script unit :=
  run* external (TorchManualSeed 777) in
  let args := parse_args argv in
  match models_dict !! model args with
  | None => Throw (KeyError (model args))
  | Some base =>
      run* init (make_conditional_experiment base) in
      run* external (ModelCheckpoint ("../saved_models/lincs_rnn_" +:+ model args)
                       false 10) in
      run* external (TestTubeLogger "../logs/" ("lincs_rnn_" +:+ model args)) in
      run* external (Trainer
                       {| gpus := if decide (gpu args < 0)%Z then [] else [gpu args];
                          early_stop_callback := false;
                          max_nb_epochs := 400;
                          show_progress_bar := false |}) in
      run* external Fit in
      run* external StateDict in
      run* external (TorchSave ("../saved_models/lincs_rnn_" +:+ model args +:+ ".ckpt")) in
      Ret tt
  end.

(** The configurations of the trainers that a run constructs. *)
Definition trainer_calls (tr : list call) : list trainer_config :=
  flat_map (fun c => match c with Trainer config => [config] | _ => [] end) tr.

(** The files and directories that a call of the script names. *)
Inductive access : Type := Input | Output.

Definition files (c : call) : list (access * string) :=
  match c with
  | TorchLoad path _ => [(Input, path)]
  | ModelCheckpoint filepath _ _ => [(Output, filepath)]
  | TestTubeLogger save_dir _ => [(Output, save_dir)]
  | TorchSave path => [(Output, path)]
  | _ => []
  end.

(** A path is relative when it does not start at the root, [/] (code 47). *)
Definition is_relative (path : string) : bool :=
  match path with
  | String c _ => negb (Ascii.eqb c (Ascii.ascii_of_nat 47))
  | _ => true
  end.

End Main.

(** ** What a run shows *)

Import CondGen.

Module Observe.
Section WithLibrary.
Context {L : Library}.

(** The batches that a run hands to [get_latents]. *)
Definition latent_batches (tr : list call) : list batch :=
  flat_map (fun c => match c with GetLatents b => [b] | _ => [] end) tr.

(** Whether [training_step] takes one of its two estimating branches:
    no extra argument, or a first extra argument equal to 2. *)
Definition estimates (args : list Z) : bool :=
  match args with
  | [] => true
  | optimizer_nb :: _ => bool_decide (optimizer_nb = 2%Z)
  end.

End WithLibrary.

Definition is_trainer (c : Main.call) : bool :=
  match c with
  | Main.Trainer _ => true
  | _ => false
  end.

(** The calls of a run of the script before it constructs the trainer. *)
Fixpoint before_trainer (tr : list Main.call) : list Main.call :=
  match tr with
  | [] => []
  | c :: tr' => if is_trainer c then [] else c :: before_trainer tr'
  end.

(** What the trainer is given besides the GPUs. *)
Definition trainer_settings (config : Main.trainer_config) : bool * Z * bool :=
  (Main.early_stop_callback config, Main.max_nb_epochs config,
   Main.show_progress_bar config).

(** Whether a call of the script names a CUDA device: a checkpoint mapped
    to one, or a trainer given a GPU. *)
Definition names_cuda (c : Main.call) : bool :=
  match c with
  | Main.TorchLoad _ map_location => String.prefix "cuda" map_location
  | Main.Trainer config => negb (bool_decide (Main.gpus config = []))
  | _ => false
  end.

(** A run that stays on the CPU names no CUDA device. *)
Definition cpu_only (tr : list Main.call) : bool :=
  forallb (fun c => negb (names_cuda c)) tr.

End Observe.

(** ** A small instance to run the hooks and the script on *)

Import CondGen.

Module Toy.

(** Integers for floats, with [2^a] for the exponential, the binary
    logarithm and the integer mean; molecules, images and drawings are the
    SMILES strings they come from. *)
Definition library : Library :=
  {| float := Z;
     fadd := Z.add;
     fsub := Z.sub;
     fneg := Z.opp;
     fexp := Z.pow 2;
     flog := Z.log2;
     fmean := fun l => (foldr Z.add 0 l / Z.of_nat (length l))%Z;
     detach := fun t => t;
     mol := string;
     MolFromSmiles := fun s => s;
     image := list string;
     MolsToGridImage := fun mols _ => mols;
     figure := Z;
     axes := Z;
     buffer := list string;
     ndarray := list string * Z * Z;
     rgb_array := fun buf nrows ncols => (buf, nrows, ncols);
     transpose_2_0_1 := fun a => a;
     object := string |}.

#[local] Existing Instance library.

(** The world is the image on the canvas.  The permutation drawn is the
    reversal; the encoder gives the length of each string, the
    discriminator the sum of each row, the latents ten times the length of
    each string; the base class answers as the three parameters say. *)
Definition world
    (stats : gmap string value) (optim : pyval)
    (val_stats : option (gmap string value))
  : handler answer (list string) :=
  fun c canvas =>
    match c as c0 return answer c0 * list string with
    | NpRandomPermutation n => (rev (seq 0 n), canvas)
    | MineEnc x => (map (fun s => [Z.of_nat (String.length s)]) x, canvas)
    | MineFc inp => (map (fun row => [foldr Z.add 0%Z row]) inp, canvas)
    | GetLatents b => (map (fun s => [(10 * Z.of_nat (String.length s))%Z]) b.1, canvas)
    | Sample y => (map (fun _ => "CCO") y, canvas)
    | SuperTrainingStep _ _ _ => (stats, canvas)
    | SuperConfigureOptimizers => (optim, canvas)
    | SuperValidationStep => (val_stats, canvas)
    | PltFigure num _ _ => (num, canvas)
    | AddSubplot fig _ _ _ => (fig, canvas)
    | AxisOff _ => (tt, canvas)
    | Imshow _ img => (tt, img)
    | CanvasDraw _ => (tt, canvas)
    | CanvasToStringRgb _ => (canvas, canvas)
    | CanvasGetWidthHeight _ => ((3000, 1200)%Z, canvas)
    | AddImage _ _ => (tt, canvas)
    end.

Definition x : smiles := ["CCO"; "CC"; "C"].
Definition y : tensor := [[1]; [2]; [3]]%Z.
Definition z : tensor := [[30; 0]; [20; 0]; [10; 0]]%Z.

Definition base_log : gmap string value := {[ "elbo" := VFloat 7%Z ]}.
Definition base_stats : gmap string value :=
  {[ "loss" := VFloat 100%Z; "log" := VDict base_log ]}.

Definition adam_base : pyval := PObj (BaseObject "Adam(generator)").
Definition adam_disc : pyval := PObj (BaseObject "Adam(discriminator)").
Definition aae_optimizers : pyval :=
  PTuple [PList [adam_base; adam_disc]; PList []].

Definition vae : handler answer (list string) := world base_stats adam_base None.
Definition aae : handler answer (list string) := world base_stats aae_optimizers None.

(** The script: the base class sets [z_dim] to 8, and the world counts
    the calls. *)
Definition machine : handler Main.answer nat :=
  fun c n =>
    match c as c0 return Main.answer c0 * nat with
    | Main.SuperInit _ _ => (8%Z, S n)
    | Main.TorchManualSeed _ | Main.RNNEncoder _ | Main.TorchLoad _ _
    | Main.LoadStateDict | Main.FinetunedEncoder _ | Main.FCDiscriminator _
    | Main.ModelCheckpoint _ _ _ | Main.TestTubeLogger _ _ | Main.Trainer _
    | Main.Fit | Main.StateDict | Main.TorchSave _ => (tt, S n)
    end.

(** Variations: an encoder that loses the batch, statistics of the base
    class with an entry missing, other answers to configure_optimizers, a
    base class with validation statistics of its own. *)
Definition short_encoder : handler answer (list string) :=
  fun c canvas =>
    match c as c0 return answer c0 * list string with
    | MineEnc _ => ([], canvas)
    | c0 => vae c0 canvas
    end.

Definition stats_without_loss : gmap string value := {[ "log" := VDict base_log ]}.
Definition stats_without_log : gmap string value := {[ "loss" := VFloat 100%Z ]}.

Definition no_loss : handler answer (list string) := world stats_without_loss adam_base None.
Definition no_log : handler answer (list string) := world stats_without_log adam_base None.

Definition empty_tuple : handler answer (list string) := world base_stats (PTuple []) None.
Definition tuple_of_optimizer : handler answer (list string) :=
  world base_stats (PTuple [adam_base; adam_disc]) None.

Definition base_val_stats : gmap string value :=
  {[ "x" := VNone; "val_loss" := VFloat 4%Z ]}.
Definition with_val_stats : handler answer (list string) :=
  world base_stats adam_base (Some base_val_stats).

Definition long_x : smiles := ["C"; "CC"; "CCC"; "CCCC"; "CCCCC"; "CCCCCC"; "N"].

End Toy.

(** * Properties *)

(** ** Running computations *)

Section RunFacts.
Context {call : Type} {answer : call -> Type} {S : Type} (h : handler answer S).

Lemma run_bind {A B} (p : prog answer A) (f : A -> prog answer B) (s : S) :
  run h (bind p f) s =
  match run h p s with
  | (Ok a, s1, tr1) => let '(r, s2, tr2) := run h (f a) s1 in (r, s2, tr1 ++ tr2)
  | (Err e, s1, tr1) => (Err e, s1, tr1)
  end.
Proof.
  revert s. induction p as [a|e|c k IH]; intros s; simpl.
  - by destruct (run h (f a) s) as [[r s2] tr2].
  - done.
  - rewrite IH.
    destruct (run h (k (ask h c s)) (after h c s)) as [[[a|e] s1] tr1]; [|done].
    by destruct (run h (f a) s1) as [[r s2] tr2].
Qed.

Lemma run_bind_seq {A B} (p : prog answer A) (f : A -> prog answer B)
    s a s1 tr1 r s2 tr2 :
  run h p s = (Ok a, s1, tr1) ->
  run h (f a) s1 = (r, s2, tr2) ->
  run h (bind p f) s = (r, s2, tr1 ++ tr2).
Proof. intros Hp Hf. by rewrite run_bind, Hp, Hf. Qed.

Lemma run_bind_err {A B} (p : prog answer A) (f : A -> prog answer B) s e s1 tr1 :
  run h p s = (Err e, s1, tr1) ->
  run h (bind p f) s = (Err e, s1, tr1).
Proof. intros Hp. by rewrite run_bind, Hp. Qed.

End RunFacts.

(** Unfold the calls of a hook and run up to the next thing that does
    not compute. *)
Ltac call_out :=
  unfold np_random_permutation, self_mine_enc, self_mine_fc, self_get_latents,
    self_sample, super_training_step, super_configure_optimizers,
    super_validation_step, plt_figure, add_subplot, axis_off, imshow,
    canvas_draw, canvas_tostring_rgb, canvas_get_width_height, add_image,
    external, ext;
  cbn [run bind lift].

Section HookFacts.
Context {L : Library} {S : Type} (h : handler answer S).

(** ** mi_computation *)

Lemma index_rows_in_range (z : tensor) (idx : list nat) :
  Forall (fun i => i < length z) idx ->
  index_rows z idx = Ok (map (fun i => z !!! i) idx).
Proof.
  induction 1 as [|i idx Hi _ IH]; cbn [index_rows map]; [done|].
  destruct (lookup_lt_is_Some_2 z i Hi) as [row Hrow].
  rewrite Hrow, IH. by rewrite (list_lookup_total_correct _ _ _ Hrow).
Qed.

Lemma rows_in_order (z : tensor) :
  map (fun i => z !!! i) (seq 0 (length z)) = z.
Proof.
  apply list_eq; intros i. rewrite list_lookup_fmap.
  destruct (decide (i < length z)) as [Hi|Hi].
  - rewrite lookup_seq_lt by done. simpl.
    destruct (lookup_lt_is_Some_2 z i Hi) as [row Hrow].
    by rewrite Hrow, (list_lookup_total_correct _ _ _ Hrow).
  - rewrite lookup_seq_ge by lia. simpl.
    symmetry. apply lookup_ge_None. lia.
Qed.

Lemma index_rows_permutation (z : tensor) (perm : list nat) :
  perm ≡ₚ seq 0 (length z) ->
  exists z_shuffled, index_rows z perm = Ok z_shuffled /\ z_shuffled ≡ₚ z.
Proof.
  intros Hperm. exists (map (fun i => z !!! i) perm). split.
  - apply index_rows_in_range. rewrite Hperm.
    apply Forall_forall. intros i Hi. apply elem_of_seq in Hi. lia.
  - transitivity (map (fun i => z !!! i) (seq 0 (length z))).
    + by apply fmap_Permutation.
    + by rewrite rows_in_order.
Qed.

Lemma index_rows_length (z : tensor) (idx : list nat) (rows : tensor) :
  index_rows z idx = Ok rows -> length rows = length idx.
Proof.
  revert rows. induction idx as [|i idx IH]; intros rows; cbn [index_rows].
  - by intros [= <-].
  - destruct (z !! i); [|done].
    destruct (index_rows z idx) as [rows'|]; [|done].
    intros [= <-]. simpl. by rewrite (IH rows').
Qed.

Lemma mean_torch_exp (t : tensor) :
  mean (torch_exp t) = fmean (map fexp (concat t)).
Proof. unfold mean, torch_exp. by rewrite concat_map. Qed.

(** The run of [mi_computation], given the rows that the drawn indices
    select. *)
Lemma mi_computation_run (s : S) (x : smiles) (y z z_shuffled : tensor) :
  let perm : list nat := ask h (NpRandomPermutation (length z)) s in
  let s1 := after h (NpRandomPermutation (length z)) s in
  let x_lat : tensor := ask h (MineEnc x) s1 in
  let s2 := after h (MineEnc x) s1 in
  let paired := zip_with app x_lat z in
  let mismatched := zip_with app x_lat z_shuffled in
  let t : tensor := ask h (MineFc paired) s2 in
  let s3 := after h (MineFc paired) s2 in
  let t_shuffled : tensor := ask h (MineFc mismatched) s3 in
  let s4 := after h (MineFc mismatched) s3 in
  index_rows z perm = Ok z_shuffled ->
  length perm = length z ->
  length x_lat = length z ->
  run h (mi_computation (x, y) z) s =
  (Ok (donsker_varadhan t t_shuffled), s4,
   [NpRandomPermutation (length z); MineEnc x; MineFc paired; MineFc mismatched]).
Proof.
  intros perm s1 x_lat s2 paired mismatched t s3 t_shuffled s4 Hidx Hperm Hlen.
  assert (length x_lat = length z_shuffled) as Hlen'
    by (by rewrite (index_rows_length _ _ _ Hidx), Hperm).
  unfold mi_computation. call_out.
  fold perm. rewrite Hidx. cbn [run bind lift]. fold s1 x_lat.
  unfold torch_cat. rewrite decide_True by done. cbn [run bind lift].
  fold paired s2 t s3.
  rewrite decide_True by done. cbn [run bind lift].
  fold mismatched t_shuffled s4.
  unfold donsker_varadhan. by rewrite mean_torch_exp.
Qed.

(** X1: when the encoder changes the batch size, [torch.cat] raises and no
    discriminator runs. *)
Remark mi_computation_batch_mismatch (s : S) (x : smiles) (y z : tensor) :
  let perm : list nat := ask h (NpRandomPermutation (length z)) s in
  let s1 := after h (NpRandomPermutation (length z)) s in
  let x_lat : tensor := ask h (MineEnc x) s1 in
  perm ≡ₚ seq 0 (length z) ->
  length x_lat <> length z ->
  run h (mi_computation (x, y) z) s =
  (Err RuntimeError, after h (MineEnc x) s1,
   [NpRandomPermutation (length z); MineEnc x]).
Proof.
  intros perm s1 x_lat Hperm Hlen.
  destruct (index_rows_permutation z perm Hperm) as (z_shuffled & Hidx & _).
  unfold mi_computation. call_out.
  fold perm. rewrite Hidx. cbn [run bind lift]. fold s1 x_lat.
  unfold torch_cat. by rewrite decide_False by done.
Qed.

(** C1: whatever the encoder, the discriminator and the generator of
    permutations answer, provided the permutation drawn for a latent batch
    [z] is one of its row positions and the encoder keeps the batch size,
    [mi_computation] on [(x, y)] and [z] returns the Donsker-Varadhan
    bound of [t] and [t_shuffled]: [t] is [mine_fc] on the row-wise
    concatenation of the encoded [x] with [z], [t_shuffled] is [mine_fc]
    on the concatenation of the same encoded [x] with [z_shuffled], the
    rows of [z] in the drawn order, a permutation of [z].  The encoder is
    called once. *)
Theorem mi_computation_donsker_varadhan (s : S) (x : smiles) (y z : tensor) :
  let perm : list nat := ask h (NpRandomPermutation (length z)) s in
  let s1 := after h (NpRandomPermutation (length z)) s in
  let x_lat : tensor := ask h (MineEnc x) s1 in
  let s2 := after h (MineEnc x) s1 in
  perm ≡ₚ seq 0 (length z) ->
  length x_lat = length z ->
  exists z_shuffled : tensor,
    index_rows z perm = Ok z_shuffled /\
    z_shuffled ≡ₚ z /\
    let paired := zip_with app x_lat z in
    let mismatched := zip_with app x_lat z_shuffled in
    let t : tensor := ask h (MineFc paired) s2 in
    let s3 := after h (MineFc paired) s2 in
    let t_shuffled : tensor := ask h (MineFc mismatched) s3 in
    let s4 := after h (MineFc mismatched) s3 in
    run h (mi_computation (x, y) z) s =
    (Ok (donsker_varadhan t t_shuffled), s4,
     [NpRandomPermutation (length z); MineEnc x; MineFc paired; MineFc mismatched]).
Proof.
  intros perm s1 x_lat s2 Hperm Hlen.
  destruct (index_rows_permutation z perm Hperm) as (z_shuffled & Hidx & Hsh).
  exists z_shuffled. split; [done|]. split; [done|].
  apply mi_computation_run; [done| |done].
  apply Permutation_length in Hperm. by rewrite length_seq in Hperm.
Qed.

(** ** training_step *)

(** C2: with no optimizer index (a VAE-like model), when the base class
    returns statistics with a 0-dimensional ['loss'] and a dictionary
    ['log'], [training_step] returns those statistics with ['loss']
    increased by the negative of the estimate and ['log']['mi[xz|y]'] set
    to the estimate; the estimate is that of [mi_computation] on the batch
    with its second component detached and on the detached latents of that
    batch. *)
Theorem training_step_vae_like (s : S) (x : smiles) (y : tensor) (batch_nb : Z)
    (mi loss : float) (log : gmap string value) (s3 : S) (tr : list call) :
  let stats : gmap string value := ask h (SuperTrainingStep (x, y) batch_nb []) s in
  let s1 := after h (SuperTrainingStep (x, y) batch_nb []) s in
  let b := (x, detach y) in
  let z := detach (ask h (GetLatents b) s1) in
  let s2 := after h (GetLatents b) s1 in
  run h (mi_computation b z) s2 = (Ok mi, s3, tr) ->
  stats !! "loss" = Some (VFloat loss) ->
  stats !! "log" = Some (VDict log) ->
  run h (training_step (x, y) batch_nb []) s =
  (Ok (<["log" := VDict (<["mi[xz|y]" := VFloat mi]> log)]>
         (<["loss" := VFloat (fadd loss (fneg mi))]> stats)),
   s3,
   SuperTrainingStep (x, y) batch_nb [] :: GetLatents b :: tr).
Proof.
  intros stats s1 b z s2 Hmi Hloss Hlog.
  unfold training_step. call_out. fold stats s1.
  rewrite decide_True by done. cbn [run bind fst snd]. fold b z s2.
  erewrite (run_bind_seq h _ _ _ _ _ _ _ _ [] Hmi); [by rewrite app_nil_r|].
  unfold getitem at 1. rewrite Hloss. cbn [lift bind iadd].
  unfold getitem. rewrite lookup_insert_ne by done. by rewrite Hlog.
Qed.

(** X3: without a ['loss'] in the statistics of the base class, the sum
    raises [KeyError], after the estimate has been computed. *)
Remark training_step_vae_like_no_loss (s : S) (x : smiles) (y : tensor)
    (batch_nb : Z) (mi : float) (s3 : S) (tr : list call) :
  let stats : gmap string value := ask h (SuperTrainingStep (x, y) batch_nb []) s in
  let s1 := after h (SuperTrainingStep (x, y) batch_nb []) s in
  let b := (x, detach y) in
  let z := detach (ask h (GetLatents b) s1) in
  let s2 := after h (GetLatents b) s1 in
  run h (mi_computation b z) s2 = (Ok mi, s3, tr) ->
  stats !! "loss" = None ->
  run h (training_step (x, y) batch_nb []) s =
  (Err (KeyError "loss"), s3,
   SuperTrainingStep (x, y) batch_nb [] :: GetLatents b :: tr).
Proof.
  intros stats s1 b z s2 Hmi Hloss.
  unfold training_step. call_out. fold stats s1.
  rewrite decide_True by done. cbn [run bind fst snd]. fold b z s2.
  erewrite (run_bind_seq h _ _ _ _ _ _ _ _ [] Hmi); [by rewrite app_nil_r|].
  unfold getitem at 1. by rewrite Hloss.
Qed.

(** C3: with optimizer index 2 (an AAE-like model), [training_step]
    returns exactly [{'loss': -mi, 'log': {'mi[xz|y]': mi}}], where [mi]
    is the estimate on the batch with its second component detached and on
    the detached latents of that batch.  The base class is still called,
    first, but nothing of its statistics is in the result. *)
Theorem training_step_aae_like_mine (s : S) (x : smiles) (y : tensor)
    (batch_nb : Z) (more : list Z) (mi : float) (s3 : S) (tr : list call) :
  let args := 2%Z :: more in
  let s1 := after h (SuperTrainingStep (x, y) batch_nb args) s in
  let b := (x, detach y) in
  let z := detach (ask h (GetLatents b) s1) in
  let s2 := after h (GetLatents b) s1 in
  run h (mi_computation b z) s2 = (Ok mi, s3, tr) ->
  run h (training_step (x, y) batch_nb args) s =
  (Ok {[ "loss" := VFloat (fneg mi);
         "log" := VDict {[ "mi[xz|y]" := VFloat mi ]} ]},
   s3,
   SuperTrainingStep (x, y) batch_nb args :: GetLatents b :: tr).
Proof.
  intros args s1 b z s2 Hmi.
  unfold training_step. call_out. fold s1.
  rewrite decide_False by done. cbn [run bind lift first_arg args lookup list_lookup].
  rewrite decide_True by done. cbn [run bind fst snd]. fold b z s2.
  erewrite (run_bind_seq h _ _ _ _ _ _ _ _ [] Hmi); [by rewrite app_nil_r|].
  unfold getitem. rewrite lookup_insert_eq. cbn [lift bind setitem run].
  rewrite insert_insert_eq, insert_empty.
  rewrite (insert_insert_ne _ "log" "loss") by done.
  by rewrite !insert_empty.
Qed.

(** C10: with an optimizer index other than 2 (an AAE-like model, say
    index 0 or 1), [training_step] returns the statistics of the base
    class as they are, and the call to the base class is the only call
    made: no latents are fetched, neither [mine_enc] nor [mine_fc] runs. *)
Theorem training_step_aae_like_other (s : S) (b : batch) (batch_nb : Z)
    (optimizer_nb : Z) (more : list Z) :
  optimizer_nb <> 2%Z ->
  let args := optimizer_nb :: more in
  run h (training_step b batch_nb args) s =
  (Ok (ask h (SuperTrainingStep b batch_nb args) s),
   after h (SuperTrainingStep b batch_nb args) s,
   [SuperTrainingStep b batch_nb args]).
Proof.
  intros Hnb args.
  unfold training_step. call_out.
  rewrite decide_False by done. cbn [run bind lift first_arg args lookup list_lookup].
  by rewrite decide_False by done.
Qed.

(** ** configure_optimizers *)

Lemma append_grows (items : list pyval) (x : pyval) : items ++ [x] <> items.
Proof.
  intros Heq. apply (f_equal length) in Heq.
  rewrite length_app in Heq. simpl in Heq. lia.
Qed.

(** C4: when the base class answers a tuple whose first element is a list
    (an AAE-like model), [configure_optimizers] returns that tuple with
    one Adam optimizer, of learning rate 3e-4 and over the parameters of
    [mine_fc] and [mine_enc], appended to the first element, which is a
    change; when the base class answers anything that is not a tuple, the
    answer is returned as it is. *)
Theorem configure_optimizers_appends_iff_tuple (s : S) :
  let optim : pyval := ask h SuperConfigureOptimizers s in
  let s1 := after h SuperConfigureOptimizers s in
  let adam := PObj (Adam [mine_fc; mine_enc] (FloatLit 3 (-4))) in
  (forall optimizers rest,
     optim = PTuple (PList optimizers :: rest) ->
     run h configure_optimizers s =
     (Ok (PTuple (PList (optimizers ++ [adam]) :: rest)), s1,
      [SuperConfigureOptimizers]) /\
     PTuple (PList (optimizers ++ [adam]) :: rest) <> optim) /\
  ((forall items, optim <> PTuple items) ->
     run h configure_optimizers s = (Ok optim, s1, [SuperConfigureOptimizers])).
Proof.
  intros optim s1 adam. split.
  - intros optimizers rest Hoptim. split.
    + unfold configure_optimizers. call_out. fold optim s1. by rewrite Hoptim.
    + rewrite Hoptim. intros [= Heq]. by apply append_grows in Heq.
  - intros Hnot.
    unfold configure_optimizers. call_out. fold optim s1.
    destruct optim as [o|items|items]; [done|done|].
    by destruct (Hnot items).
Qed.

(** X7: a tuple without a list in front: the empty tuple has no first
    element, and only a list can be appended to. *)
Remark configure_optimizers_other_tuples (s : S) :
  let optim : pyval := ask h SuperConfigureOptimizers s in
  let s1 := after h SuperConfigureOptimizers s in
  (optim = PTuple [] ->
   run h configure_optimizers s = (Err IndexError, s1, [SuperConfigureOptimizers])) /\
  (forall first rest,
     optim = PTuple (first :: rest) ->
     (forall optimizers, first <> PList optimizers) ->
     run h configure_optimizers s =
     (Err AttributeError, s1, [SuperConfigureOptimizers])).
Proof.
  intros optim s1. split.
  - intros Hoptim. unfold configure_optimizers. call_out. fold optim s1.
    by rewrite Hoptim.
  - intros first rest Hoptim Hfirst.
    unfold configure_optimizers. call_out. fold optim s1. rewrite Hoptim.
    destruct first as [o|items|items]; [done| |done].
    by destruct (Hfirst items).
Qed.

(** ** validation_step and validation_end *)

Lemma comprehension_mi (outputs : list (gmap string value)) (mis : list float) :
  Forall2 (fun o m => o !! "mi[xz|y]" = Some (VFloat m)) outputs mis ->
  comprehension (fun x => getitem x "mi[xz|y]") outputs = Ok (map VFloat mis).
Proof.
  induction 1 as [|o m outputs mis Ho _ IH]; cbn [comprehension map]; [done|].
  unfold getitem at 1. by rewrite Ho, IH.
Qed.

Lemma floats_are_tensors (l : list float) :
  forallb is_tensor (map VFloat l) = true.
Proof. induction l; simpl; auto. Qed.

Lemma floats_have_one_shape (v : value) (l : list float) :
  shape v = [] -> Forall (fun w => shape w = shape v) (map VFloat l).
Proof. intros ->. induction l; simpl; constructor; auto. Qed.

Lemma elements_of_floats (l : list float) :
  flat_map elements (map VFloat l) = l.
Proof. induction l; simpl; congruence. Qed.

Lemma stack_mean_floats (m : float) (mis : list float) :
  stack_mean (map VFloat (m :: mis)) = Ok (fmean (m :: mis)).
Proof.
  unfold stack_mean. cbn [map].
  change (VFloat m :: map VFloat mis) with (map VFloat (m :: mis)).
  rewrite floats_are_tensors, elements_of_floats.
  by rewrite decide_True by by apply floats_have_one_shape.
Qed.

(** C5: [validation_step] on [(x, y)] adds to the statistics of the base
    class (to the empty dictionary when the base class answers [None]) the
    estimate under ['mi[xz|y]'], the molecules sampled for [y] under
    ['x_sam'], and [x] and [y] under ['x'] and ['y'].  [validation_end],
    given per-batch statistics of that kind, returns
    [{'log': {'val_mi[xz|y]': m}}] for [m] the mean of all the per-batch
    estimates, and logs under ['samples'] the picture drawn from one grid
    image, five per row, of the molecules of the first five sampled and
    the first five real SMILES strings of the first batch. *)
Theorem validation_step_then_end :
  (forall (s : S) (x : smiles) (y : tensor) (batch_nb : Z)
          (mi : float) (s3 : S) (tr : list call),
     let stats0 : gmap string value := default ∅ (ask h SuperValidationStep s) in
     let s1 := after h SuperValidationStep s in
     let z : tensor := ask h (GetLatents (x, y)) s1 in
     let s2 := after h (GetLatents (x, y)) s1 in
     let sampled_x : smiles := ask h (Sample y) s3 in
     run h (mi_computation (x, y) z) s2 = (Ok mi, s3, tr) ->
     exists stats : gmap string value,
       run h (validation_step (x, y) batch_nb) s =
       (Ok stats, after h (Sample y) s3,
        SuperValidationStep :: GetLatents (x, y) :: tr ++ [Sample y]) /\
       stats = <["y" := VTensor y]> (<["x" := VSmiles x]>
                (<["x_sam" := VSmiles sampled_x]>
                 (<["mi[xz|y]" := VFloat mi]> stats0))) /\
       stats !! "mi[xz|y]" = Some (VFloat mi) /\
       stats !! "x_sam" = Some (VSmiles sampled_x) /\
       stats !! "x" = Some (VSmiles x) /\
       stats !! "y" = Some (VTensor y)) /\
  (forall (s : S) (first : gmap string value) (rest : list (gmap string value))
          (mis : list float) (x_sam x : smiles),
     Forall2 (fun o m => o !! "mi[xz|y]" = Some (VFloat m)) (first :: rest) mis ->
     first !! "x_sam" = Some (VSmiles x_sam) ->
     first !! "x" = Some (VSmiles x) ->
     let fig : figure := ask h (PltFigure 0 (10, 4)%Z 300) s in
     let s1 := after h (PltFigure 0 (10, 4)%Z 300) s in
     let ax : axes := ask h (AddSubplot fig 1 1 1) s1 in
     let s2 := after h (AddSubplot fig 1 1 1) s1 in
     let s3 := after h (AxisOff ax) s2 in
     let grid := MolsToGridImage (map MolFromSmiles (take 5 x_sam) ++
                                  map MolFromSmiles (take 5 x)) 5 in
     let s4 := after h (Imshow ax grid) s3 in
     let s5 := after h (CanvasDraw fig) s4 in
     let buf : buffer := ask h (CanvasToStringRgb fig) s5 in
     let s6 := after h (CanvasToStringRgb fig) s5 in
     let size : Z * Z := ask h (CanvasGetWidthHeight fig) s6 in
     let s7 := after h (CanvasGetWidthHeight fig) s6 in
     let fig_array := transpose_2_0_1 (rgb_array buf size.2 size.1) in
     run h (validation_end (first :: rest)) s =
     (Ok {[ "log" := VDict {[ "val_mi[xz|y]" := VFloat (fmean mis) ]} ]},
      after h (AddImage "samples" fig_array) s7,
      [PltFigure 0 (10, 4)%Z 300; AddSubplot fig 1 1 1; AxisOff ax;
       Imshow ax grid; CanvasDraw fig; CanvasToStringRgb fig;
       CanvasGetWidthHeight fig; AddImage "samples" fig_array])).
Proof.
  split.
  - intros s x y batch_nb mi s3 tr stats0 s1 z s2 sampled_x Hmi.
    eexists. split; [|split; [reflexivity|]].
    + unfold validation_step. call_out. fold s1 z s2.
      erewrite (run_bind_seq h _ _ _ _ _ _ _ _ [Sample y] Hmi); [done|].
      cbn [run bind]. fold sampled_x. unfold stats0.
      by destruct (ask h SuperValidationStep s).
    + by simplify_map_eq.
  - intros s first rest mis x_sam x Hmis Hsam Hx.
    intros fig s1 ax s2 s3 grid s4 s5 buf s6 size s7 fig_array.
    unfold validation_end.
    rewrite (comprehension_mi _ _ Hmis). cbn [bind lift].
    destruct mis as [|m mis]; [by inversion Hmis|].
    rewrite stack_mean_floats. call_out.
    cbn [run bind lift lookup list_lookup]. fold fig s1 ax s2 s3.
    unfold getitem. rewrite Hsam, Hx.
    cbn [run bind lift first_five]. fold grid s4 s5 buf s6 size s7.
    destruct size as [ncols nrows] eqn:Hsize.
    cbn [run bind fst snd]. fold fig_array.
    by rewrite !insert_empty.
Qed.

(** Without outputs there is nothing to stack: [validation_end] raises
    before it draws. *)
Remark validation_end_no_outputs (s : S) :
  run h (validation_end []) s = (Err RuntimeError, s, []).
Proof. reflexivity. Qed.

End HookFacts.

(** ** The hooks on the small instance *)

Section HookWitnesses.
Import Toy.
#[local] Existing Instance library.

Lemma mi_computation_donsker_varadhan_witness :
  rev (seq 0 3) ≡ₚ seq 0 3 /\
  length (map (fun s => [Z.of_nat (String.length s)]) x) = length z /\
  run vae (mi_computation (x, y) z) [] =
  (Ok (-7)%Z, [],
   [NpRandomPermutation 3; MineEnc x;
    MineFc [[3; 30; 0]; [2; 20; 0]; [1; 10; 0]]%Z;
    MineFc [[3; 10; 0]; [2; 20; 0]; [1; 30; 0]]%Z]).
Proof.
  assert (rev (seq 0 3) ≡ₚ seq 0 3) as Hperm by (symmetry; apply Permutation_rev).
  split; [exact Hperm|]. split; [reflexivity|].
  destruct (mi_computation_donsker_varadhan (L:=library) vae [] x y z Hperm eq_refl)
    as (z_shuffled & Hidx & _ & Hrun).
  vm_compute in Hidx. injection Hidx as <-.
  rewrite Hrun. reflexivity.
Defined.

Lemma training_step_vae_like_witness :
  run vae (mi_computation (x, detach y) [[30]; [20]; [10]]%Z) [] =
    (Ok (-7)%Z, [],
     [NpRandomPermutation 3; MineEnc x;
      MineFc [[3; 30]; [2; 20]; [1; 10]]%Z;
      MineFc [[3; 10]; [2; 20]; [1; 30]]%Z]) /\
  base_stats !! "loss" = Some (VFloat 100%Z) /\
  base_stats !! "log" = Some (VDict base_log) /\
  run vae (training_step (x, y) 0 []) [] =
    (Ok (<["log" := VDict (<["mi[xz|y]" := VFloat (-7)%Z]> base_log)]>
           (<["loss" := VFloat 107%Z]> base_stats)),
     [],
     [SuperTrainingStep (x, y) 0 []; GetLatents (x, y);
      NpRandomPermutation 3; MineEnc x;
      MineFc [[3; 30]; [2; 20]; [1; 10]]%Z;
      MineFc [[3; 10]; [2; 20]; [1; 30]]%Z]).
Proof.
  split; [reflexivity|]. split; [reflexivity|]. split; [reflexivity|].
  apply (training_step_vae_like (L:=library) vae [] x y 0 (-7)%Z 100%Z
           base_log [] _); reflexivity.
Defined.

Lemma training_step_aae_like_mine_witness :
  run aae (mi_computation (x, detach y) [[30]; [20]; [10]]%Z) [] =
    (Ok (-7)%Z, [],
     [NpRandomPermutation 3; MineEnc x;
      MineFc [[3; 30]; [2; 20]; [1; 10]]%Z;
      MineFc [[3; 10]; [2; 20]; [1; 30]]%Z]) /\
  run aae (training_step (x, y) 0 [2%Z]) [] =
    (Ok {[ "loss" := VFloat 7%Z; "log" := VDict {[ "mi[xz|y]" := VFloat (-7)%Z ]} ]},
     [],
     [SuperTrainingStep (x, y) 0 [2%Z]; GetLatents (x, y);
      NpRandomPermutation 3; MineEnc x;
      MineFc [[3; 30]; [2; 20]; [1; 10]]%Z;
      MineFc [[3; 10]; [2; 20]; [1; 30]]%Z]).
Proof.
  split; [reflexivity|].
  apply (training_step_aae_like_mine (L:=library) aae [] x y 0 [] (-7)%Z [] _). reflexivity.
Defined.

Lemma training_step_aae_like_other_witness :
  1%Z <> 2%Z /\
  run aae (training_step (x, y) 0 [1%Z]) [] =
    (Ok base_stats, [], [SuperTrainingStep (x, y) 0 [1%Z]]).
Proof.
  split; [lia|].
  apply (training_step_aae_like_other (L:=library) aae [] (x, y) 0 1%Z []). lia.
Defined.

Lemma configure_optimizers_appends_iff_tuple_witness :
  (aae_optimizers =
     PTuple [PList [adam_base; adam_disc]; PList []] /\
   run aae configure_optimizers [] =
     (Ok (PTuple
            [PList [adam_base; adam_disc;
                    PObj (Adam [mine_fc; mine_enc] (FloatLit 3 (-4)))];
             PList []]),
      [], [SuperConfigureOptimizers])) /\
  ((forall items, adam_base <> PTuple items) /\
   run vae configure_optimizers [] = (Ok adam_base, [], [SuperConfigureOptimizers])).
Proof.
  split.
  - split; [reflexivity|].
    destruct (configure_optimizers_appends_iff_tuple (L:=library) aae []) as [Htuple _].
    destruct (Htuple [adam_base; adam_disc] [PList []] eq_refl)
      as [Hrun _].
    exact Hrun.
  - assert (forall items, adam_base <> PTuple items) as Hnot by (intros items; discriminate).
    split; [exact Hnot|].
    destruct (configure_optimizers_appends_iff_tuple (L:=library) vae []) as [_ Hother].
    exact (Hother Hnot).
Defined.

Lemma validation_step_then_end_witness :
  let stats : gmap string value :=
    <["y" := VTensor y]> (<["x" := VSmiles x]>
      (<["x_sam" := VSmiles ["CCO"; "CCO"; "CCO"]]>
        (<["mi[xz|y]" := VFloat (-7)%Z]> ∅))) in
  let later : gmap string value := {[ "mi[xz|y]" := VFloat 3%Z ]} in
  let grid := ["CCO"; "CCO"; "CCO"; "CCO"; "CC"; "C"] in
  (run vae (mi_computation (x, y) [[30]; [20]; [10]]%Z) [] =
     (Ok (-7)%Z, [],
      [NpRandomPermutation 3; MineEnc x;
       MineFc [[3; 30]; [2; 20]; [1; 10]]%Z;
       MineFc [[3; 10]; [2; 20]; [1; 30]]%Z]) /\
   run vae (validation_step (x, y) 0) [] =
     (Ok stats, [],
      [SuperValidationStep; GetLatents (x, y);
       NpRandomPermutation 3; MineEnc x;
       MineFc [[3; 30]; [2; 20]; [1; 10]]%Z;
       MineFc [[3; 10]; [2; 20]; [1; 30]]%Z; Sample y])) /\
  (Forall2 (fun o m => o !! "mi[xz|y]" = Some (VFloat m)) [stats; later] [(-7)%Z; 3%Z] /\
   stats !! "x_sam" = Some (VSmiles ["CCO"; "CCO"; "CCO"]) /\
   stats !! "x" = Some (VSmiles x) /\
   run vae (validation_end [stats; later]) [] =
     (Ok {[ "log" := VDict {[ "val_mi[xz|y]" := VFloat (-2)%Z ]} ]},
      grid,
      [PltFigure 0 (10, 4)%Z 300; AddSubplot 0%Z 1 1 1; AxisOff 0%Z;
       Imshow 0%Z grid; CanvasDraw 0%Z; CanvasToStringRgb 0%Z;
       CanvasGetWidthHeight 0%Z; AddImage "samples" (grid, 1200%Z, 3000%Z)])).
Proof.
  intros stats later grid.
  destruct (validation_step_then_end (L:=library) vae) as [Hstep Hend].
  split.
  - split; [reflexivity|].
    destruct (Hstep [] x y 0%Z (-7)%Z [] _ eq_refl) as (stats' & Hrun & -> & _).
    exact Hrun.
  - assert (Forall2 (fun o m => o !! "mi[xz|y]" = Some (VFloat m))
              [stats; later] [(-7)%Z; 3%Z]) as Hmis
      by (repeat constructor).
    split; [exact Hmis|]. split; [reflexivity|]. split; [reflexivity|].
    exact (Hend [] stats [later] [(-7)%Z; 3%Z] ["CCO"; "CCO"; "CCO"] x
             Hmis eq_refl eq_refl).
Defined.

End HookWitnesses.

(** ** More on the hooks *)

Section RunInversion.
Context {call : Type} {answer : call -> Type} {S : Type} (h : handler answer S).

Lemma run_bind_inv_ok {A B} (p : prog answer A) (f : A -> prog answer B)
    s b s2 tr :
  run h (bind p f) s = (Ok b, s2, tr) ->
  exists a s1 tr1 tr2,
    run h p s = (Ok a, s1, tr1) /\
    run h (f a) s1 = (Ok b, s2, tr2) /\
    tr = tr1 ++ tr2.
Proof.
  rewrite run_bind.
  destruct (run h p s) as [[[a|e] s1] tr1]; [|done].
  destruct (run h (f a) s1) as [[r s2'] tr2] eqn:Hf.
  intros [= -> -> <-]. by exists a, s1, tr1, tr2.
Qed.

Lemma run_bind_calls {A B} (p : prog answer A) (f : A -> prog answer B) s :
  calls (run h (bind p f) s) =
  calls (run h p s) ++
  match outcome (run h p s) with
  | Ok a => calls (run h (f a) (final (run h p s)))
  | Err _ => []
  end.
Proof.
  rewrite run_bind.
  destruct (run h p s) as [[[a|e] s1] tr1]; cbn.
  - by destruct (run h (f a) s1) as [[r s2] tr2].
  - by rewrite app_nil_r.
Qed.

Lemma calls_cons {A} (c : call) (o : result A * S * list call) :
  calls (let '(r, s', tr) := o in (r, s', c :: tr)) = c :: calls o.
Proof. by destruct o as [[r s'] tr]. Qed.

End RunInversion.

Section HookExtras.
Context {L : Library} {S : Type} (h : handler answer S).
Import Observe.

(** *** mi_computation *)

Lemma concatenated_rows_split (a b : tensor) (p : nat) :
  length a = length b ->
  Forall (fun row => length row = p) a ->
  map (take p) (zip_with app a b) = a /\ map (drop p) (zip_with app a b) = b.
Proof.
  intros Hlen Ha. revert b Hlen.
  induction Ha as [|row a Hrow _ IH]; intros [|row' b] Hlen; try done.
  cbn. destruct (IH b) as [-> ->]; [by injection Hlen|].
  by rewrite take_app_length', drop_app_length'.
Qed.

(** X2: when the encoder answers rows of one width [p] (and keeps the
    batch size, and the permutation is one), the two inputs of the
    discriminator split at column [p]: in front the encoded [x], row by
    row, in both; behind it [z] itself in the first input and a
    permutation of the rows of [z] in the second. *)
Theorem mi_computation_discriminator_inputs (s : S) (x : smiles) (y z : tensor)
    (p : nat) :
  let perm : list nat := ask h (NpRandomPermutation (length z)) s in
  let s1 := after h (NpRandomPermutation (length z)) s in
  let x_lat : tensor := ask h (MineEnc x) s1 in
  perm ≡ₚ seq 0 (length z) ->
  length x_lat = length z ->
  Forall (fun row => length row = p) x_lat ->
  exists paired mismatched : tensor,
    calls (run h (mi_computation (x, y) z) s) =
      [NpRandomPermutation (length z); MineEnc x; MineFc paired; MineFc mismatched] /\
    map (take p) paired = x_lat /\
    map (drop p) paired = z /\
    map (take p) mismatched = x_lat /\
    map (drop p) mismatched ≡ₚ z.
Proof.
  intros perm s1 x_lat Hperm Hlen Hwidth.
  destruct (index_rows_permutation z perm Hperm) as (z_shuffled & Hidx & Hsh).
  exists (zip_with app x_lat z), (zip_with app x_lat z_shuffled).
  split.
  - rewrite (mi_computation_run h s x y z z_shuffled); [done|done| |done].
    apply Permutation_length in Hperm. by rewrite length_seq in Hperm.
  - destruct (concatenated_rows_split x_lat z p Hlen Hwidth) as [-> ->].
    destruct (concatenated_rows_split x_lat z_shuffled p) as [-> ->]; [|done|done].
    by rewrite Hlen, (Permutation_length Hsh).
Qed.

(** *** training_step *)

(** X4: with a ['loss'] but without a ['log'] in the statistics of the
    base class (no extra argument), [training_step] raises [KeyError] for
    ['log'], after the estimate has been computed. *)
Theorem training_step_vae_like_no_log (s : S) (x : smiles) (y : tensor)
    (batch_nb : Z) (mi loss : float) (s3 : S) (tr : list call) :
  let stats : gmap string value := ask h (SuperTrainingStep (x, y) batch_nb []) s in
  let s1 := after h (SuperTrainingStep (x, y) batch_nb []) s in
  let b := (x, detach y) in
  let z := detach (ask h (GetLatents b) s1) in
  let s2 := after h (GetLatents b) s1 in
  run h (mi_computation b z) s2 = (Ok mi, s3, tr) ->
  stats !! "loss" = Some (VFloat loss) ->
  stats !! "log" = None ->
  run h (training_step (x, y) batch_nb []) s =
  (Err (KeyError "log"), s3,
   SuperTrainingStep (x, y) batch_nb [] :: GetLatents b :: tr).
Proof.
  intros stats s1 b z s2 Hmi Hloss Hlog.
  unfold training_step. call_out. fold stats s1.
  rewrite decide_True by done. cbn [run bind fst snd]. fold b z s2.
  erewrite (run_bind_seq h _ _ _ _ _ _ _ _ [] Hmi); [by rewrite app_nil_r|].
  unfold getitem at 1. rewrite Hloss. cbn [lift bind iadd].
  unfold getitem. rewrite lookup_insert_ne by done. by rewrite Hlog.
Qed.

Lemma mi_computation_no_latents (s : S) (b : batch) (z : tensor) :
  latent_batches (calls (run h (mi_computation b z) s)) = [].
Proof.
  destruct b as [x y]. unfold mi_computation. call_out.
  destruct (index_rows z _) as [z_shuffled|e]; [|done].
  call_out. unfold torch_cat.
  case_decide; [|done]. call_out.
  by case_decide.
Qed.

Lemma estimate_tail_no_calls {A B} (s : S) (r : result A) (f : A -> result B) :
  calls (run h (let* a := lift r in lift (f a)) s) = [].
Proof. destruct r as [a|e]; [|done]. cbn. by destruct (f a). Qed.

(** X5: whatever the arguments and whatever fails later, [training_step]
    fetches latents exactly when it takes an estimating branch (no extra
    argument, or first extra argument 2), then once, and for the batch
    whose second component is detached: never for the batch as given. *)
Theorem training_step_latents_only_detached (s : S) (x : smiles) (y : tensor)
    (batch_nb : Z) (args : list Z) :
  latent_batches (calls (run h (training_step (x, y) batch_nb args) s)) =
  if estimates args then [(x, detach y)] else [].
Proof.
  unfold training_step. call_out.
  set (stats := ask h (SuperTrainingStep (x, y) batch_nb args) s).
  set (s1 := after h (SuperTrainingStep (x, y) batch_nb args) s).
  destruct args as [|optimizer_nb more].
  - rewrite decide_True by done. cbn [run bind fst snd estimates].
    set (b := (x, detach y)).
    set (z := detach (ask h (GetLatents b) s1)).
    set (s2 := after h (GetLatents b) s1).
    rewrite !calls_cons, run_bind_calls.
    unfold latent_batches. cbn [flat_map app]. rewrite flat_map_app.
    fold (latent_batches (calls (run h (mi_computation b z) s2))).
    rewrite mi_computation_no_latents.
    destruct (outcome (run h (mi_computation b z) s2)) as [mi|e]; [|done].
    unfold getitem at 1.
    destruct (_ !! "loss") as [loss|]; cbn [lift bind]; [|done].
    destruct (iadd loss (fneg mi)) as [loss'|e]; cbn [lift bind]; [|done].
    unfold getitem.
    destruct (_ !! "log") as [log|]; cbn [lift bind]; [|done].
    by destruct (setitem log "mi[xz|y]" (VFloat mi)).
  - rewrite decide_False by done. cbn [run bind lift first_arg lookup list_lookup estimates].
    case_decide as Hnb.
    + rewrite bool_decide_eq_true_2 by done. cbn [run bind fst snd].
      set (b := (x, detach y)).
      set (z := detach (ask h (GetLatents b) s1)).
      set (s2 := after h (GetLatents b) s1).
      rewrite !calls_cons, run_bind_calls.
      unfold latent_batches. cbn [flat_map app]. rewrite flat_map_app.
      fold (latent_batches (calls (run h (mi_computation b z) s2))).
      rewrite mi_computation_no_latents.
      destruct (outcome (run h (mi_computation b z) s2)) as [mi|e]; [|done].
      unfold getitem. by rewrite lookup_insert_eq.
    + by rewrite bool_decide_eq_false_2 by done.
Qed.

(** *** configure_optimizers *)

(** X8: when the base class answers a tuple with a list of optimizers in
    front, the optimizers of the base class keep their positions in the
    result, the added Adam sits right behind them, and the rest of the
    tuple is as it was.  [training_step], called with the position of the
    added Adam as its optimizer index, fetches the latents for the
    estimate exactly when the base class has two optimizers. *)
Theorem configure_optimizers_positions (s : S) (optimizers rest : list pyval) :
  let optim : pyval := ask h SuperConfigureOptimizers s in
  let adam := PObj (Adam [mine_fc; mine_enc] (FloatLit 3 (-4))) in
  optim = PTuple (PList optimizers :: rest) ->
  exists optimizers' : list pyval,
    outcome (run h configure_optimizers s) = Ok (PTuple (PList optimizers' :: rest)) /\
    (forall i o, optimizers !! i = Some o -> optimizers' !! i = Some o) /\
    optimizers' !! length optimizers = Some adam /\
    length optimizers' = Datatypes.S (length optimizers) /\
    (forall (s' : S) (x : smiles) (y : tensor) (batch_nb : Z),
       GetLatents (x, detach y) ∈
         calls (run h (training_step (x, y) batch_nb [Z.of_nat (length optimizers)]) s')
       <-> length optimizers = 2).
Proof.
  intros optim adam Hoptim. exists (optimizers ++ [adam]).
  split; [|split; [|split; [|split]]].
  - unfold configure_optimizers. call_out. fold optim. by rewrite Hoptim.
  - intros i o Hi. by apply lookup_app_l_Some.
  - by rewrite lookup_app_r, Nat.sub_diag.
  - rewrite length_app. cbn. lia.
  - intros s' x y batch_nb. unfold training_step. call_out.
    rewrite decide_False by done.
    cbn [run bind lift first_arg lookup list_lookup].
    case_decide as Hnb.
    + cbn [run bind fst snd]. rewrite !calls_cons.
      split; [lia|]. intros _. rewrite !elem_of_cons. by right; left.
    + cbn [run calls snd]. split; [|lia].
      rewrite elem_of_cons, elem_of_nil. by intros [|[]].
Qed.

(** *** validation_step and validation_end *)

Lemma validation_step_ok_inv (s s' : S) (x : smiles) (y : tensor) (batch_nb : Z)
    (stats : gmap string value) (tr : list call) :
  run h (validation_step (x, y) batch_nb) s = (Ok stats, s', tr) ->
  exists (mi : float) (sampled_x : smiles),
    stats = <["y" := VTensor y]> (<["x" := VSmiles x]>
             (<["x_sam" := VSmiles sampled_x]>
              (<["mi[xz|y]" := VFloat mi]>
               (default ∅ (ask h SuperValidationStep s))))).
Proof.
  unfold validation_step. call_out.
  match goal with
  | |- context [run h ?p ?s2] =>
      destruct (run h p s2) as [[r s3] tr'] eqn:Hrun
  end.
  intros [= -> -> <-].
  apply run_bind_inv_ok in Hrun as (mi & s4 & tr1 & tr2 & _ & Htail & _).
  cbn in Htail. injection Htail as <- _ _.
  eexists mi, _. by destruct (ask h SuperValidationStep s).
Qed.

(** X9: when [validation_step] returns, its result holds a
    0-dimensional tensor under ['mi[xz|y]'], SMILES strings under
    ['x_sam'], the batch under ['x'] and ['y'], whatever the base class
    had stored under these four keys; every other entry of the base class
    is kept, and no further key appears. *)
Theorem validation_step_keeps_base_keys (s s' : S) (x : smiles) (y : tensor)
    (batch_nb : Z) (stats : gmap string value) (tr : list call) :
  let stats0 : gmap string value := default ∅ (ask h SuperValidationStep s) in
  run h (validation_step (x, y) batch_nb) s = (Ok stats, s', tr) ->
  (exists mi, stats !! "mi[xz|y]" = Some (VFloat mi)) /\
  (exists sampled_x, stats !! "x_sam" = Some (VSmiles sampled_x)) /\
  stats !! "x" = Some (VSmiles x) /\
  stats !! "y" = Some (VTensor y) /\
  (forall key, key ∉ ["mi[xz|y]"; "x_sam"; "x"; "y"] -> stats !! key = stats0 !! key) /\
  dom stats = {[ "mi[xz|y]"; "x_sam"; "x"; "y" ]} ∪ dom stats0.
Proof.
  intros stats0 Hrun.
  destruct (validation_step_ok_inv _ _ _ _ _ _ _ Hrun) as (mi & sampled_x & ->).
  fold stats0.
  split; [exists mi; by simplify_map_eq|].
  split; [exists sampled_x; by simplify_map_eq|].
  split; [by simplify_map_eq|]. split; [by simplify_map_eq|]. split.
  - intros key Hkey. rewrite !not_elem_of_cons in Hkey.
    destruct Hkey as (? & ? & ? & ? & _). by rewrite !lookup_insert_ne.
  - rewrite !dom_insert_L. apply set_eq. intros key.
    rewrite !elem_of_union, !elem_of_singleton. tauto.
Qed.

Lemma validation_end_run (s : S) (first : gmap string value)
    (rest : list (gmap string value)) (mis : list float) (x_sam x : smiles) :
  let fig : figure := ask h (PltFigure 0 (10, 4)%Z 300) s in
  let s1 := after h (PltFigure 0 (10, 4)%Z 300) s in
  let ax : axes := ask h (AddSubplot fig 1 1 1) s1 in
  let s2 := after h (AddSubplot fig 1 1 1) s1 in
  let s3 := after h (AxisOff ax) s2 in
  let grid := MolsToGridImage (map MolFromSmiles (take 5 x_sam) ++
                               map MolFromSmiles (take 5 x)) 5 in
  let s4 := after h (Imshow ax grid) s3 in
  let s5 := after h (CanvasDraw fig) s4 in
  let buf : buffer := ask h (CanvasToStringRgb fig) s5 in
  let s6 := after h (CanvasToStringRgb fig) s5 in
  let size : Z * Z := ask h (CanvasGetWidthHeight fig) s6 in
  let s7 := after h (CanvasGetWidthHeight fig) s6 in
  let fig_array := transpose_2_0_1 (rgb_array buf size.2 size.1) in
  Forall2 (fun o m => o !! "mi[xz|y]" = Some (VFloat m)) (first :: rest) mis ->
  first !! "x_sam" = Some (VSmiles x_sam) ->
  first !! "x" = Some (VSmiles x) ->
  run h (validation_end (first :: rest)) s =
  (Ok {[ "log" := VDict {[ "val_mi[xz|y]" := VFloat (fmean mis) ]} ]},
   after h (AddImage "samples" fig_array) s7,
   [PltFigure 0 (10, 4)%Z 300; AddSubplot fig 1 1 1; AxisOff ax;
    Imshow ax grid; CanvasDraw fig; CanvasToStringRgb fig;
    CanvasGetWidthHeight fig; AddImage "samples" fig_array]).
Proof.
  intros fig s1 ax s2 s3 grid s4 s5 buf s6 size s7 fig_array Hmis Hsam Hx.
  unfold validation_end.
  rewrite (comprehension_mi _ _ Hmis). cbn [bind lift].
  destruct mis as [|m mis]; [by inversion Hmis|].
  rewrite stack_mean_floats. call_out.
  cbn [run bind lift lookup list_lookup]. fold fig s1 ax s2 s3.
  unfold getitem. rewrite Hsam, Hx.
  cbn [run bind lift first_five]. fold grid s4 s5 buf s6 size s7.
  destruct size as [ncols nrows] eqn:Hsize.
  cbn [run bind fst snd]. fold fig_array.
  by rewrite !insert_empty.
Qed.

Lemma comprehension_missing_mi (outputs : list (gmap string value)) :
  Exists (fun o => o !! "mi[xz|y]" = None) outputs ->
  comprehension (fun o => getitem o "mi[xz|y]") outputs = Err (KeyError "mi[xz|y]").
Proof.
  induction outputs as [|o outputs IH]; intros Hex; [by inversion Hex|].
  cbn [comprehension]. unfold getitem at 1.
  destruct (o !! "mi[xz|y]") as [v|] eqn:Ho; [|done].
  inversion Hex as [? ? Hnone|? ? Hrest]; subst; [congruence|].
  by rewrite (IH Hrest).
Qed.

(** X10: [validation_end] raises before it touches matplotlib or the
    logger when there is nothing to average: [RuntimeError] for an empty
    list of outputs, [KeyError] when some output has no ['mi[xz|y]']. *)
Theorem validation_end_raises_before_drawing (s : S)
    (outputs : list (gmap string value)) :
  (outputs = [] ->
   run h (validation_end outputs) s = (Err RuntimeError, s, [])) /\
  (Exists (fun o => o !! "mi[xz|y]" = None) outputs ->
   run h (validation_end outputs) s = (Err (KeyError "mi[xz|y]"), s, [])).
Proof.
  split.
  - by intros ->.
  - intros Hex. unfold validation_end.
    by rewrite (comprehension_missing_mi _ Hex).
Qed.

Lemma estimates_of_step_outputs (outputs : list (gmap string value)) :
  Forall (fun o => exists b batch_nb s0 s1 tr,
            run h (validation_step b batch_nb) s0 = (Ok o, s1, tr)) outputs ->
  exists mis, Forall2 (fun o m => o !! "mi[xz|y]" = Some (VFloat m)) outputs mis.
Proof.
  induction 1 as [|o outputs Ho _ [mis IH]]; [by exists []|].
  destruct Ho as ([x y] & batch_nb & s0 & s1 & tr & Hrun).
  destruct (validation_step_ok_inv _ _ _ _ _ _ _ Hrun) as (mi & sampled_x & ->).
  exists (mi :: mis). constructor; [by simplify_map_eq|done].
Qed.

(** X11: [validation_end] does not raise on a non-empty list of results
    of [validation_step]: it returns the mean of their estimates under
    ['log']['val_mi[xz|y]'] after eight calls, the last of which logs the
    picture. *)
Theorem validation_end_after_validation_step (s : S)
    (outputs : list (gmap string value)) :
  outputs <> [] ->
  Forall (fun o => exists b batch_nb s0 s1 tr,
            run h (validation_step b batch_nb) s0 = (Ok o, s1, tr)) outputs ->
  exists (mis : list float) (picture : ndarray),
    Forall2 (fun o m => o !! "mi[xz|y]" = Some (VFloat m)) outputs mis /\
    outcome (run h (validation_end outputs) s) =
      Ok {[ "log" := VDict {[ "val_mi[xz|y]" := VFloat (fmean mis) ]} ]} /\
    length (calls (run h (validation_end outputs) s)) = 8 /\
    last (calls (run h (validation_end outputs) s)) = Some (AddImage "samples" picture).
Proof.
  intros Hne Hsteps.
  destruct (estimates_of_step_outputs _ Hsteps) as [mis Hmis].
  destruct outputs as [|first rest]; [done|].
  apply Forall_cons in Hsteps as [Hfirst _].
  destruct Hfirst as ([x y] & batch_nb & s0 & s1 & tr & Hrun).
  destruct (validation_step_ok_inv _ _ _ _ _ _ _ Hrun) as (mi & sampled_x & Hfirst).
  pose proof (validation_end_run s first rest mis sampled_x x Hmis) as Hend.
  cbv zeta in Hend. rewrite Hend; [|subst first; by simplify_map_eq..].
  exists mis. eexists. split; [done|]. split; [done|]. split; done.
Qed.

(** X12: of the molecules, [validation_end] uses the first five SMILES
    strings under ['x_sam'] and under ['x'] of the first output only: two
    lists of outputs with the same estimates, whose first outputs agree on
    those, give the same run, whatever else they hold. *)
Theorem validation_end_draws_first_five_of_first (s : S)
    (first1 first2 : gmap string value) (rest1 rest2 : list (gmap string value))
    (mis : list float) (x_sam1 x_sam2 x1 x2 : smiles) :
  Forall2 (fun o m => o !! "mi[xz|y]" = Some (VFloat m)) (first1 :: rest1) mis ->
  Forall2 (fun o m => o !! "mi[xz|y]" = Some (VFloat m)) (first2 :: rest2) mis ->
  first1 !! "x_sam" = Some (VSmiles x_sam1) ->
  first2 !! "x_sam" = Some (VSmiles x_sam2) ->
  first1 !! "x" = Some (VSmiles x1) ->
  first2 !! "x" = Some (VSmiles x2) ->
  take 5 x_sam1 = take 5 x_sam2 ->
  take 5 x1 = take 5 x2 ->
  run h (validation_end (first1 :: rest1)) s =
  run h (validation_end (first2 :: rest2)) s.
Proof.
  intros Hmis1 Hmis2 Hsam1 Hsam2 Hx1 Hx2 Hsam Hx.
  pose proof (validation_end_run s first1 rest1 mis x_sam1 x1 Hmis1 Hsam1 Hx1) as H1.
  pose proof (validation_end_run s first2 rest2 mis x_sam2 x2 Hmis2 Hsam2 Hx2) as H2.
  cbv zeta in H1, H2. rewrite H1, H2. by rewrite Hsam, Hx.
Qed.

End HookExtras.

Section HookExtraWitnesses.
Import Toy.
#[local] Existing Instance library.

Lemma mi_computation_batch_mismatch_witness :
  rev (seq 0 3) ≡ₚ seq 0 3 /\
  length (@nil (list Z)) <> length z /\
  run short_encoder (mi_computation (x, y) z) [] =
    (Err RuntimeError, [], [NpRandomPermutation 3; MineEnc x]).
Proof.
  assert (rev (seq 0 3) ≡ₚ seq 0 3) as Hperm by (symmetry; apply Permutation_rev).
  assert (length (@nil (list Z)) <> length z) as Hlen by (cbn; lia).
  split; [exact Hperm|]. split; [exact Hlen|].
  exact (mi_computation_batch_mismatch (L:=library) short_encoder [] x y z Hperm Hlen).
Defined.

Lemma mi_computation_discriminator_inputs_witness :
  rev (seq 0 3) ≡ₚ seq 0 3 /\
  Forall (fun row : list Z => length row = 1) [[3]; [2]; [1]]%Z /\
  exists paired mismatched : tensor,
    calls (run vae (mi_computation (x, y) z) []) =
      [NpRandomPermutation 3; MineEnc x; MineFc paired; MineFc mismatched] /\
    map (take 1) paired = [[3]; [2]; [1]]%Z /\
    map (drop 1) paired = z /\
    map (take 1) mismatched = [[3]; [2]; [1]]%Z /\
    map (drop 1) mismatched ≡ₚ z.
Proof.
  assert (rev (seq 0 3) ≡ₚ seq 0 3) as Hperm by (symmetry; apply Permutation_rev).
  assert (Forall (fun row : list Z => length row = 1) [[3]; [2]; [1]]%Z) as Hwidth
    by (repeat constructor).
  split; [exact Hperm|]. split; [exact Hwidth|].
  exact (mi_computation_discriminator_inputs (L:=library) vae [] x y z 1
           Hperm eq_refl Hwidth).
Defined.

Lemma training_step_vae_like_no_loss_witness :
  run no_loss (mi_computation (x, detach y) [[30]; [20]; [10]]%Z) [] =
    (Ok (-7)%Z, [],
     [NpRandomPermutation 3; MineEnc x;
      MineFc [[3; 30]; [2; 20]; [1; 10]]%Z;
      MineFc [[3; 10]; [2; 20]; [1; 30]]%Z]) /\
  stats_without_loss !! "loss" = None /\
  run no_loss (training_step (x, y) 0 []) [] =
    (Err (KeyError "loss"), [],
     [SuperTrainingStep (x, y) 0 []; GetLatents (x, y);
      NpRandomPermutation 3; MineEnc x;
      MineFc [[3; 30]; [2; 20]; [1; 10]]%Z;
      MineFc [[3; 10]; [2; 20]; [1; 30]]%Z]).
Proof.
  split; [reflexivity|]. split; [reflexivity|].
  apply (training_step_vae_like_no_loss (L:=library) no_loss [] x y 0 (-7)%Z [] _);
    reflexivity.
Defined.

Lemma training_step_vae_like_no_log_witness :
  run no_log (mi_computation (x, detach y) [[30]; [20]; [10]]%Z) [] =
    (Ok (-7)%Z, [],
     [NpRandomPermutation 3; MineEnc x;
      MineFc [[3; 30]; [2; 20]; [1; 10]]%Z;
      MineFc [[3; 10]; [2; 20]; [1; 30]]%Z]) /\
  stats_without_log !! "loss" = Some (VFloat 100%Z) /\
  stats_without_log !! "log" = None /\
  run no_log (training_step (x, y) 0 []) [] =
    (Err (KeyError "log"), [],
     [SuperTrainingStep (x, y) 0 []; GetLatents (x, y);
      NpRandomPermutation 3; MineEnc x;
      MineFc [[3; 30]; [2; 20]; [1; 10]]%Z;
      MineFc [[3; 10]; [2; 20]; [1; 30]]%Z]).
Proof.
  split; [reflexivity|]. split; [reflexivity|]. split; [reflexivity|].
  apply (training_step_vae_like_no_log (L:=library) no_log [] x y 0 (-7)%Z 100%Z [] _);
    reflexivity.
Defined.

Lemma configure_optimizers_other_tuples_witness :
  (ask empty_tuple SuperConfigureOptimizers [] = PTuple [] /\
   run empty_tuple configure_optimizers [] =
     (Err IndexError, [], [SuperConfigureOptimizers])) /\
  (ask tuple_of_optimizer SuperConfigureOptimizers [] = PTuple [adam_base; adam_disc] /\
   (forall optimizers, adam_base <> PList optimizers) /\
   run tuple_of_optimizer configure_optimizers [] =
     (Err AttributeError, [], [SuperConfigureOptimizers])).
Proof.
  split.
  - split; [reflexivity|].
    destruct (configure_optimizers_other_tuples (L:=library) empty_tuple []) as [Hempty _].
    exact (Hempty eq_refl).
  - assert (forall optimizers, adam_base <> PList optimizers) as Hfirst
      by (intros optimizers; discriminate).
    split; [reflexivity|]. split; [exact Hfirst|].
    destruct (configure_optimizers_other_tuples (L:=library) tuple_of_optimizer [])
      as [_ Hother].
    exact (Hother adam_base [adam_disc] eq_refl Hfirst).
Defined.

Lemma configure_optimizers_positions_witness :
  ask aae SuperConfigureOptimizers [] = PTuple [PList [adam_base; adam_disc]; PList []] /\
  exists optimizers' : list pyval,
    outcome (run aae configure_optimizers []) =
      Ok (PTuple [PList optimizers'; PList []]) /\
    (forall i o, [adam_base; adam_disc] !! i = Some o -> optimizers' !! i = Some o) /\
    optimizers' !! 2 = Some (PObj (Adam [mine_fc; mine_enc] (FloatLit 3 (-4)))) /\
    length optimizers' = 3 /\
    (forall (s' : list string) (x : smiles) (y : tensor) (batch_nb : Z),
       GetLatents (x, detach y) ∈
         calls (run aae (training_step (x, y) batch_nb [2%Z]) s')
       <-> 2 = 2).
Proof.
  split; [reflexivity|].
  exact (configure_optimizers_positions (L:=library) aae [] [adam_base; adam_disc]
           [PList []] eq_refl).
Defined.

Lemma validation_step_keeps_base_keys_witness :
  let stats : gmap string value :=
    <["y" := VTensor y]> (<["x" := VSmiles x]>
      (<["x_sam" := VSmiles ["CCO"; "CCO"; "CCO"]]>
        (<["mi[xz|y]" := VFloat (-7)%Z]> base_val_stats))) in
  let tr :=
    [SuperValidationStep; GetLatents (x, y);
     NpRandomPermutation 3; MineEnc x;
     MineFc [[3; 30]; [2; 20]; [1; 10]]%Z;
     MineFc [[3; 10]; [2; 20]; [1; 30]]%Z; Sample y] in
  run with_val_stats (validation_step (x, y) 0) [] = (Ok stats, [], tr) /\
  base_val_stats !! "x" = Some VNone /\
  stats !! "x" = Some (VSmiles x) /\
  stats !! "val_loss" = Some (VFloat 4%Z) /\
  dom stats = {[ "mi[xz|y]"; "x_sam"; "x"; "y" ]} ∪ dom base_val_stats.
Proof.
  intros stats tr.
  assert (run with_val_stats (validation_step (x, y) 0) [] = (Ok stats, [], tr))
    as Hrun by reflexivity.
  split; [exact Hrun|]. split; [reflexivity|].
  destruct (validation_step_keeps_base_keys (L:=library) with_val_stats [] [] x y 0
              stats tr Hrun) as (_ & _ & Hx & _ & Hkeys & Hdom).
  split; [exact Hx|]. split; [|exact Hdom].
  rewrite (Hkeys "val_loss"); [reflexivity|].
  apply (bool_decide_unpack _). vm_compute. exact I.
Defined.

Lemma validation_end_raises_before_drawing_witness :
  let outputs : list (gmap string value) :=
    [ {[ "mi[xz|y]" := VFloat 3%Z ]}; base_val_stats ] in
  Exists (fun o : gmap string value => o !! "mi[xz|y]" = None) outputs /\
  run vae (validation_end outputs) [] = (Err (KeyError "mi[xz|y]"), [], []) /\
  run vae (validation_end []) [] = (Err RuntimeError, [], []).
Proof.
  intros outputs.
  assert (Exists (fun o : gmap string value => o !! "mi[xz|y]" = None) outputs) as Hex
    by (apply Exists_cons_tl, Exists_cons_hd; reflexivity).
  split; [exact Hex|]. split.
  - destruct (validation_end_raises_before_drawing (L:=library) vae [] outputs)
      as [_ Hmissing].
    exact (Hmissing Hex).
  - destruct (validation_end_raises_before_drawing (L:=library) vae [] []) as [Hempty _].
    exact (Hempty eq_refl).
Defined.

Lemma validation_end_after_validation_step_witness :
  let stats : gmap string value :=
    <["y" := VTensor y]> (<["x" := VSmiles x]>
      (<["x_sam" := VSmiles ["CCO"; "CCO"; "CCO"]]>
        (<["mi[xz|y]" := VFloat (-7)%Z]> ∅))) in
  [stats] <> [] /\
  Forall (fun o => exists b batch_nb s0 s1 tr,
            run vae (validation_step b batch_nb) s0 = (Ok o, s1, tr)) [stats] /\
  exists (mis : list Z) (picture : list string * Z * Z),
    Forall2 (fun o m => o !! "mi[xz|y]" = Some (VFloat m)) [stats] mis /\
    outcome (run vae (validation_end [stats]) []) =
      Ok {[ "log" := VDict {[ "val_mi[xz|y]" := VFloat (fmean mis) ]} ]} /\
    length (calls (run vae (validation_end [stats]) [])) = 8 /\
    last (calls (run vae (validation_end [stats]) [])) =
      Some (AddImage "samples" picture).
Proof.
  intros stats.
  assert ([stats] <> []) as Hne by discriminate.
  assert (Forall (fun o => exists b batch_nb s0 s1 tr,
                    run vae (validation_step b batch_nb) s0 = (Ok o, s1, tr)) [stats])
    as Hsteps.
  { constructor; [|constructor].
    exists (x, y), 0%Z, [], []. eexists. reflexivity. }
  split; [exact Hne|]. split; [exact Hsteps|].
  exact (validation_end_after_validation_step (L:=library) vae [] [stats] Hne Hsteps).
Defined.

Lemma validation_end_draws_first_five_of_first_witness :
  let first1 : gmap string value :=
    {[ "mi[xz|y]" := VFloat 3%Z; "x_sam" := VSmiles long_x; "x" := VSmiles long_x ]} in
  let first2 : gmap string value :=
    {[ "mi[xz|y]" := VFloat 3%Z; "x_sam" := VSmiles (take 5 long_x);
       "x" := VSmiles (take 6 long_x); "y" := VTensor y ]} in
  let later1 : gmap string value := {[ "mi[xz|y]" := VFloat 5%Z ]} in
  let later2 : gmap string value :=
    {[ "mi[xz|y]" := VFloat 5%Z; "x" := VSmiles ["O"] ]} in
  take 5 long_x = take 5 (take 5 long_x) /\
  take 5 long_x = take 5 (take 6 long_x) /\
  run vae (validation_end [first1; later1]) [] =
  run vae (validation_end [first2; later2]) [].
Proof.
  intros first1 first2 later1 later2.
  split; [reflexivity|]. split; [reflexivity|].
  apply (validation_end_draws_first_five_of_first (L:=library) vae [] first1 first2
           [later1] [later2] [3%Z; 5%Z] long_x (take 5 long_x) long_x (take 6 long_x));
    try reflexivity; repeat constructor.
Defined.

End HookExtraWitnesses.

(** ** The script *)

Section MainFacts.
Import Main.
Context {S : Type} (h : handler Main.answer S).

Lemma models_dict_unknown (name : string) :
  name ∉ ["biaae"; "lat_saae"; "uniaae"; "cvae"; "vcca"; "jmvae"; "vib"; "saae"] ->
  models_dict !! name = None.
Proof. intros Hname. by apply not_elem_of_list_to_map_1. Qed.

Lemma models_dict_known (name : string) (base : model_class) :
  (name, base) ∈ [("biaae", BiAAE); ("lat_saae", Lat_SAAE); ("uniaae", UniAAE);
                  ("cvae", CVAE); ("vcca", VCCA); ("jmvae", JMVAE);
                  ("vib", VIB); ("saae", SAAE)] ->
  models_dict !! name = Some base.
Proof.
  intros Hin. apply elem_of_list_to_map_1; [|done].
  cbn. compute_done.
Qed.

(** A run of the script with a known model name: it ends normally after
    these thirteen calls. *)
Lemma main_known_model (argv : command_line) (base : model_class) (s : S) :
  let args := parse_args argv in
  let z_dim : Z := ask h (SuperInit base "lincs_rnn") (after h (TorchManualSeed 777) s) in
  models_dict !! model args = Some base ->
  outcome (run h (main argv) s) = Ok tt /\
  calls (run h (main argv) s) =
  [TorchManualSeed 777;
   SuperInit base "lincs_rnn";
   RNNEncoder 88;
   TorchLoad "../saved_models/rnn_enc.ckpt" "cuda:1";
   LoadStateDict;
   FinetunedEncoder z_dim;
   FCDiscriminator (2 * z_dim);
   ModelCheckpoint ("../saved_models/lincs_rnn_" +:+ model args) false 10;
   TestTubeLogger "../logs/" ("lincs_rnn_" +:+ model args);
   Trainer {| gpus := if decide (gpu args < 0)%Z then [] else [gpu args];
              early_stop_callback := false;
              max_nb_epochs := 400;
              show_progress_bar := false |};
   Fit;
   StateDict;
   TorchSave ("../saved_models/lincs_rnn_" +:+ model args +:+ ".ckpt")].
Proof.
  intros args z_dim Hbase. unfold main. fold args. rewrite Hbase.
  unfold make_conditional_experiment, init, external, ext.
  cbn [run bind outcome calls fst snd]. done.
Qed.

(** C6: without [--model] the name is ['biaae']; for each of the eight
    names the dictionary gives the class of that name, and the script
    given that name (or no name, for BiAAE) builds the experiment from
    that class: after seeding, its first calls are those of the
    constructor of the class derived from it, and it ends normally. *)
Theorem model_option_selects_class :
  (forall g, model (parse_args (CommandLine None g)) = "biaae") /\
  (forall (name : string) (base : model_class),
     (name, base) ∈ [("biaae", BiAAE); ("lat_saae", Lat_SAAE); ("uniaae", UniAAE);
                     ("cvae", CVAE); ("vcca", VCCA); ("jmvae", JMVAE);
                     ("vib", VIB); ("saae", SAAE)] ->
     models_dict !! name = Some base /\
     forall (argv : command_line) (s : S),
       given_model argv = Some name \/ (given_model argv = None /\ name = "biaae") ->
       let z_dim : Z :=
         ask h (SuperInit base "lincs_rnn") (after h (TorchManualSeed 777) s) in
       outcome (run h (main argv) s) = Ok tt /\
       take 7 (calls (run h (main argv) s)) =
       [TorchManualSeed 777;
        SuperInit base "lincs_rnn";
        RNNEncoder 88;
        TorchLoad "../saved_models/rnn_enc.ckpt" "cuda:1";
        LoadStateDict;
        FinetunedEncoder z_dim;
        FCDiscriminator (2 * z_dim)]).
Proof.
  split; [done|].
  intros name base Hin. pose proof (models_dict_known _ _ Hin) as Hbase.
  split; [done|].
  intros argv s Hargv z_dim.
  assert (model (parse_args argv) = name) as Hname.
  { destruct argv as [m g]. cbn in *.
    by destruct Hargv as [->|[-> ->]]. }
  destruct (main_known_model argv base s) as [Hok Hcalls].
  { by rewrite Hname. }
  split; [done|]. by rewrite Hcalls.
Qed.

(** C7: without [--gpu] the index is -1, and the script constructs one
    trainer, with the empty list of GPUs when the index on the command
    line (or this default) is negative and with the list of that one
    index otherwise.  But the run is not a run on the CPU for a negative
    index: the constructor of the experiment maps the checkpoint of the
    pretrained encoder to ['cuda:1'] whatever the index is, so the run
    names a CUDA device. *)
Theorem negative_gpu_is_not_cpu_only (given_m : option string) (given_g : option Z)
    (base : model_class) (s : S) :
  let argv := CommandLine given_m given_g in
  let g := default (-1)%Z given_g in
  let tr := calls (run h (main argv) s) in
  models_dict !! model (parse_args argv) = Some base ->
  gpu (parse_args (CommandLine given_m None)) = (-1)%Z /\
  gpu (parse_args argv) = g /\
  map gpus (trainer_calls tr) = [if decide (g < 0)%Z then [] else [g]] /\
  TorchLoad "../saved_models/rnn_enc.ckpt" "cuda:1" ∈ tr /\
  ((g < 0)%Z -> Observe.cpu_only tr = false).
Proof.
  intros argv g tr Hbase.
  destruct (main_known_model argv base s Hbase) as [_ Hcalls].
  unfold tr. rewrite Hcalls. clear Hcalls.
  split; [done|]. split; [done|]. split; [done|].
  split; [set_solver|]. by intros _.
Qed.

(** X15: the checkpoint of the pretrained encoder is mapped to ['cuda:1'],
    whatever [--gpu] says. *)
Remark encoder_checkpoint_device (argv : command_line) (base : model_class) (s : S) :
  models_dict !! model (parse_args argv) = Some base ->
  TorchLoad "../saved_models/rnn_enc.ckpt" "cuda:1" ∈ calls (run h (main argv) s).
Proof.
  intros Hbase.
  destruct (main_known_model argv base s Hbase) as [_ ->]. set_solver.
Qed.

(** C8: with a model name that is none of the eight keys, the script
    raises [KeyError] for that name right after seeding: no class is
    instantiated, no trainer is made, nothing is fitted. *)
Theorem unknown_model_key_error (argv : command_line) (s : S) :
  let name := model (parse_args argv) in
  name ∉ ["biaae"; "lat_saae"; "uniaae"; "cvae"; "vcca"; "jmvae"; "vib"; "saae"] ->
  run h (main argv) s =
  (Err (KeyError name), after h (TorchManualSeed 777) s, [TorchManualSeed 777]).
Proof.
  intros name Hname. unfold main. fold name.
  by rewrite (models_dict_unknown _ Hname).
Qed.

(** C9: in a run with a known model name [m], the files named are, in
    order: ['../saved_models/rnn_enc.ckpt'], read; and, written,
    ['../saved_models/lincs_rnn_m'] (checkpoints of period 10, not only
    the best), ['../logs/'] (log name ['lincs_rnn_m']) and
    ['../saved_models/lincs_rnn_m.ckpt'].  The two data loaders read
    ['../data/lincs'], with test_set 0 for training and 1 for validation,
    in batches of 256.  All these paths are relative. *)
Theorem filesystem_paths (argv : command_line) (base : model_class) (s : S) :
  let m := model (parse_args argv) in
  let tr := calls (run h (main argv) s) in
  models_dict !! m = Some base ->
  flat_map files tr =
    [(Input, "../saved_models/rnn_enc.ckpt");
     (Output, "../saved_models/lincs_rnn_" +:+ m);
     (Output, "../logs/");
     (Output, "../saved_models/lincs_rnn_" +:+ m +:+ ".ckpt")] /\
  Forall (fun f => is_relative f.2 = true) (flat_map files tr) /\
  ModelCheckpoint ("../saved_models/lincs_rnn_" +:+ m) false 10 ∈ tr /\
  TestTubeLogger "../logs/" ("lincs_rnn_" +:+ m) ∈ tr /\
  train_dataloader = DataLoader (LincsSampler "../data/lincs" 0 true) 256 true false /\
  val_dataloader = DataLoader (LincsSampler "../data/lincs" 1 true) 256 true false /\
  is_relative "../data/lincs" = true.
Proof.
  intros m tr Hbase.
  destruct (main_known_model argv base s Hbase) as [_ Hcalls].
  unfold tr. rewrite Hcalls. fold m.
  split; [done|]. split; [by repeat constructor|].
  split; [set_solver|]. split; [set_solver|]. done.
Qed.

End MainFacts.


(** ** The script on the small instance *)

Section MainWitnesses.
Import Main Toy.

Lemma model_option_selects_class_witness :
  let argv := CommandLine (Some "cvae") None in
  ("cvae", CVAE) ∈ [("biaae", BiAAE); ("lat_saae", Lat_SAAE); ("uniaae", UniAAE);
                    ("cvae", CVAE); ("vcca", VCCA); ("jmvae", JMVAE);
                    ("vib", VIB); ("saae", SAAE)] /\
  (given_model argv = Some "cvae" \/ (given_model argv = None /\ "cvae" = "biaae")) /\
  models_dict !! "cvae" = Some CVAE /\
  outcome (run machine (main argv) 0) = Ok tt /\
  take 7 (calls (run machine (main argv) 0)) =
    [TorchManualSeed 777; SuperInit CVAE "lincs_rnn"; RNNEncoder 88;
     TorchLoad "../saved_models/rnn_enc.ckpt" "cuda:1"; LoadStateDict;
     FinetunedEncoder 8; FCDiscriminator 16].
Proof.
  intros argv.
  assert (("cvae", CVAE) ∈ [("biaae", BiAAE); ("lat_saae", Lat_SAAE);
                            ("uniaae", UniAAE); ("cvae", CVAE); ("vcca", VCCA);
                            ("jmvae", JMVAE); ("vib", VIB); ("saae", SAAE)])
    as Hin by (apply (bool_decide_unpack _); vm_compute; exact I).
  assert (given_model argv = Some "cvae" \/
          (given_model argv = None /\ "cvae" = "biaae")) as Hargv
    by (left; reflexivity).
  split; [exact Hin|]. split; [exact Hargv|].
  destruct (model_option_selects_class machine) as [_ Hnames].
  destruct (Hnames "cvae" CVAE Hin) as [Hdict Hrun].
  split; [exact Hdict|].
  exact (Hrun argv 0 Hargv).
Defined.

Lemma negative_gpu_is_not_cpu_only_witness :
  let argv := CommandLine None None in
  let tr := calls (run machine (main argv) 0) in
  models_dict !! model (parse_args argv) = Some BiAAE /\
  (default (-1) (given_gpu argv) < 0)%Z /\
  gpu (parse_args argv) = (-1)%Z /\
  map gpus (trainer_calls tr) = [[]] /\
  TorchLoad "../saved_models/rnn_enc.ckpt" "cuda:1" ∈ tr /\
  Observe.cpu_only tr = false.
Proof.
  intros argv tr.
  assert (default (-1) (given_gpu argv) < 0)%Z as Hneg by (cbn; lia).
  split; [reflexivity|]. split; [exact Hneg|].
  destruct (negative_gpu_is_not_cpu_only machine None None BiAAE 0 eq_refl)
    as (_ & Hgpu & Hgpus & Hload & Hcuda).
  split; [exact Hgpu|]. split; [exact Hgpus|]. split; [exact Hload|].
  exact (Hcuda Hneg).
Defined.

Lemma unknown_model_key_error_witness :
  let argv := CommandLine (Some "vae") (Some 0%Z) in
  ("vae" ∉ ["biaae"; "lat_saae"; "uniaae"; "cvae"; "vcca"; "jmvae"; "vib"; "saae"]) /\
  run machine (main argv) 0 = (Err (KeyError "vae"), 1, [TorchManualSeed 777]).
Proof.
  intros argv.
  assert ("vae" ∉ ["biaae"; "lat_saae"; "uniaae"; "cvae"; "vcca"; "jmvae";
                   "vib"; "saae"]) as Hname
    by (apply (bool_decide_unpack _); vm_compute; exact I).
  split; [exact Hname|].
  exact (unknown_model_key_error machine argv 0 Hname).
Defined.

Lemma filesystem_paths_witness :
  let argv := CommandLine (Some "saae") None in
  let tr := calls (run machine (main argv) 0) in
  models_dict !! "saae" = Some SAAE /\
  flat_map files tr =
    [(Input, "../saved_models/rnn_enc.ckpt");
     (Output, "../saved_models/lincs_rnn_saae");
     (Output, "../logs/");
     (Output, "../saved_models/lincs_rnn_saae.ckpt")] /\
  ModelCheckpoint "../saved_models/lincs_rnn_saae" false 10 ∈ tr /\
  TestTubeLogger "../logs/" "lincs_rnn_saae" ∈ tr.
Proof.
  intros argv tr.
  destruct (filesystem_paths machine argv SAAE 0 eq_refl)
    as (Hfiles & _ & Hcheckpoint & Hlogger & _).
  split; [reflexivity|]. split; [exact Hfiles|]. split; [exact Hcheckpoint|].
  exact Hlogger.
Defined.

End MainWitnesses.

(** ** More on the script *)

Section MainExtras.
Import Main Observe.
Context {S : Type} (h : handler Main.answer S).

(** X13: [--gpu] is not used before the trainer is constructed: two
    runs from the same state with the same model name make the same calls
    up to that construction (seed, constructor of the experiment with
    the checkpoint of the encoder, checkpoint callback, logger), whatever
    their GPU indices, and give the trainer the same settings besides the
    GPUs. *)
Theorem gpu_option_not_used_before_trainer (argv1 argv2 : command_line) (s : S) :
  model (parse_args argv1) = model (parse_args argv2) ->
  before_trainer (calls (run h (main argv1) s)) =
  before_trainer (calls (run h (main argv2) s)) /\
  map trainer_settings (trainer_calls (calls (run h (main argv1) s))) =
  map trainer_settings (trainer_calls (calls (run h (main argv2) s))).
Proof.
  intros Hmodel.
  destruct (models_dict !! model (parse_args argv1)) as [base|] eqn:Hbase.
  - destruct (main_known_model h argv1 base s Hbase) as [_ ->].
    rewrite Hmodel in Hbase.
    destruct (main_known_model h argv2 base s Hbase) as [_ ->].
    by rewrite Hmodel.
  - unfold main. rewrite <- Hmodel. by rewrite Hbase.
Qed.

(** Drop the empty prefixes that are left of an equation between strings
    with a common literal prefix. *)
Ltac empty_prefix H :=
  repeat match type of H with
         | context [String.append "" ?a] => change (String.append "" a) with a in H
         end.

Lemma list_ascii_of_append (a b : string) :
  String.list_ascii_of_string (a +:+ b) =
  String.list_ascii_of_string a ++ String.list_ascii_of_string b.
Proof. induction a as [|c a IH]; [done|]. exact (f_equal (cons c) IH). Qed.

Lemma append_right_cancel (a b suffix : string) :
  a +:+ suffix = b +:+ suffix -> a = b.
Proof.
  intros Heq. apply (f_equal String.list_ascii_of_string) in Heq.
  rewrite !list_ascii_of_append in Heq. apply app_inv_tail in Heq.
  apply (f_equal String.string_of_list_ascii) in Heq.
  by rewrite !String.string_of_list_ascii_of_string in Heq.
Qed.

Lemma known_name_is_no_checkpoint (m1 m2 : string) (base1 base2 : model_class) :
  models_dict !! m1 = Some base1 ->
  models_dict !! m2 = Some base2 ->
  m1 <> m2 +:+ ".ckpt".
Proof.
  intros H1 H2 ->. apply elem_of_list_to_map_2 in H2.
  rewrite !elem_of_cons, elem_of_nil in H2.
  destruct H2 as [H2|[H2|[H2|[H2|[H2|[H2|[H2|[H2|[]]]]]]]]];
    injection H2 as -> _; vm_compute in H1; discriminate.
Qed.

(** X14: runs with different known model names do not write to the same
    place: the only path that both name for output is the log directory
    ['../logs/'], and there they log under different names. *)
Theorem model_outputs_do_not_collide (argv1 argv2 : command_line)
    (base1 base2 : model_class) (s1 s2 : S) :
  let m1 := model (parse_args argv1) in
  let m2 := model (parse_args argv2) in
  let tr1 := calls (run h (main argv1) s1) in
  let tr2 := calls (run h (main argv2) s2) in
  models_dict !! m1 = Some base1 ->
  models_dict !! m2 = Some base2 ->
  m1 <> m2 ->
  (forall path, (Output, path) ∈ flat_map files tr1 ->
                (Output, path) ∈ flat_map files tr2 -> path = "../logs/") /\
  (forall name, TestTubeLogger "../logs/" name ∈ tr1 ->
                TestTubeLogger "../logs/" name ∈ tr2 -> False).
Proof.
  intros m1 m2 tr1 tr2 Hbase1 Hbase2 Hne.
  destruct (main_known_model h argv1 base1 s1 Hbase1) as [_ Hcalls1].
  destruct (main_known_model h argv2 base2 s2 Hbase2) as [_ Hcalls2].
  pose proof (known_name_is_no_checkpoint m1 m2 base1 base2 Hbase1 Hbase2) as H12.
  pose proof (known_name_is_no_checkpoint m2 m1 base2 base1 Hbase2 Hbase1) as H21.
  unfold tr1, tr2. rewrite Hcalls1, Hcalls2. fold m1 m2.
  clear Hcalls1 Hcalls2 Hbase1 Hbase2. clearbody m1 m2.
  split.
  - intros path. cbn [flat_map files app].
    rewrite !elem_of_cons, !elem_of_nil.
    intros [Hp1|[Hp1|[Hp1|[Hp1|[]]]]] [Hp2|[Hp2|[Hp2|[Hp2|[]]]]];
      try discriminate; try (by injection Hp1);
      injection Hp1 as ->; injection Hp2 as Hp2; empty_prefix Hp2;
      first [ by destruct Hne
            | by destruct H12
            | by (symmetry in Hp2; destruct H21)
            | by (apply append_right_cancel in Hp2; destruct Hne) ].
  - intros name. rewrite !elem_of_cons, !elem_of_nil.
    intros Hn1 Hn2.
    repeat (destruct Hn1 as [Hn1|Hn1]; [try discriminate|]); [|done].
    repeat (destruct Hn2 as [Hn2|Hn2]; [try discriminate|]); [|done].
    injection Hn1 as ->. injection Hn2 as Hn2. empty_prefix Hn2.
    by destruct Hne.
Qed.

End MainExtras.

Section MainExtraWitnesses.
Import Main Observe Toy.

Lemma encoder_checkpoint_device_witness :
  let argv := CommandLine (Some "jmvae") (Some (-1)%Z) in
  models_dict !! model (parse_args argv) = Some JMVAE /\
  TorchLoad "../saved_models/rnn_enc.ckpt" "cuda:1" ∈ calls (run machine (main argv) 0).
Proof.
  intros argv. split; [reflexivity|].
  exact (encoder_checkpoint_device machine argv JMVAE 0 eq_refl).
Defined.

Lemma gpu_option_not_used_before_trainer_witness :
  let cpu := CommandLine (Some "vcca") None in
  let second := CommandLine (Some "vcca") (Some 1%Z) in
  model (parse_args cpu) = model (parse_args second) /\
  before_trainer (calls (run machine (main cpu) 0)) =
  before_trainer (calls (run machine (main second) 0)) /\
  map trainer_settings (trainer_calls (calls (run machine (main cpu) 0))) =
  map trainer_settings (trainer_calls (calls (run machine (main second) 0))).
Proof.
  intros cpu second. split; [reflexivity|].
  exact (gpu_option_not_used_before_trainer machine cpu second 0 eq_refl).
Defined.

Lemma model_outputs_do_not_collide_witness :
  let first := CommandLine None None in
  let second := CommandLine (Some "uniaae") None in
  models_dict !! model (parse_args first) = Some BiAAE /\
  models_dict !! model (parse_args second) = Some UniAAE /\
  model (parse_args first) <> model (parse_args second) /\
  (forall path,
     (Output, path) ∈ flat_map files (calls (run machine (main first) 0)) ->
     (Output, path) ∈ flat_map files (calls (run machine (main second) 0)) ->
     path = "../logs/") /\
  (forall name,
     TestTubeLogger "../logs/" name ∈ calls (run machine (main first) 0) ->
     TestTubeLogger "../logs/" name ∈ calls (run machine (main second) 0) -> False).
Proof.
  intros first second.
  assert (model (parse_args first) <> model (parse_args second)) as Hne by discriminate.
  split; [reflexivity|]. split; [reflexivity|]. split; [exact Hne|].
  exact (model_outputs_do_not_collide machine first second BiAAE UniAAE 0 0
           eq_refl eq_refl Hne).
Defined.

End MainExtraWitnesses.
